(** * CuteDSL template kernel: region store, render hooks and call site

    A shallow embedding of
    [torch/_inductor/codegen/cutedsl/cutedsl_kernel.py].

    The Python object [self] of class [CuteDSLTemplateKernel] becomes a
    record; every method becomes a function in a state-and-exception monad
    over that record.  [IndentedBuffer] objects are mutable and shared by
    reference (the kernel's [body] field and the [body] field of a saved
    [CuteDSLSubgraphInfo] may name the same object), so they live in an
    object store carried by the record and the fields hold references. *)

From Stdlib Require Import String Ascii.
From stdpp Require Import base option list strings gmap pretty.

Open Scope string_scope.
Open Scope list_scope.
Open Scope nat_scope.

(** ** Python strings *)

Module Py.

(** Characters removed by [str.strip()] without arguments, within the
    ASCII range: TAB, LF, VT, FF, CR, FS, GS, RS, US and space. *)
Definition is_whitespace (c : ascii) : bool :=
  let n := nat_of_ascii c in
  ((9 <=? n) && (n <=? 13)) || ((28 <=? n) && (n <=? 32)).

Fixpoint lstrip (s : string) : string :=
  match s with
  | EmptyString => EmptyString
  | String c r => if is_whitespace c then lstrip r else s
  end.

Fixpoint rstrip (s : string) : string :=
  match s with
  | EmptyString => EmptyString
  | String c r =>
      match rstrip r with
      | EmptyString => if is_whitespace c then EmptyString else String c EmptyString
      | r' => String c r'
      end
  end.

(** [s.strip()] *)
Definition strip (s : string) : string := lstrip (rstrip s).

(** [sep.join(l)] *)
Fixpoint join (sep : string) (l : list string) : string :=
  match l with
  | [] => ""
  | x :: r => match r with
              | [] => x
              | _ => x +:+ sep +:+ join sep r
              end
  end.

(** [needle in s] on strings. *)
Fixpoint prefix (p s : string) : bool :=
  match p, s with
  | EmptyString, _ => true
  | String a p', String b s' => if decide (a = b) then prefix p' s' else false
  | String _ _, EmptyString => false
  end.

Fixpoint contains (s needle : string) : bool :=
  prefix needle s ||
  match s with
  | EmptyString => false
  | String _ r => contains r needle
  end.

(** Truth value of an [Optional[str]]: [None] and [""] are falsy. *)
Definition truthy_str (o : option string) : bool :=
  match o with
  | None => false
  | Some EmptyString => false
  | Some _ => true
  end.

(** Insertion-ordered [dict] with string keys: [d[k] = v] keeps the
    position of an existing key and appends a new one. *)
Fixpoint dict_set {V : Type} (k : string) (v : V) (d : list (string * V))
  : list (string * V) :=
  match d with
  | [] => [(k, v)]
  | (k', v') :: r =>
      if decide (k' = k) then (k, v) :: r else (k', v') :: dict_set k v r
  end.

Fixpoint dict_get {V : Type} (k : string) (d : list (string * V)) : option V :=
  match d with
  | [] => None
  | (k', v') :: r => if decide (k' = k) then Some v' else dict_get k r
  end.

End Py.

(** ** Exceptions

    Both guards of the source are [assert] statements, so both raise
    [AssertionError]; they differ by their message.  The specification's
    fault names are recovered from the message. *)

Inductive Exception :=
| AssertionError (msg : option string)
| AttributeError (attr : string)
| TypeError (msg : string)
| OtherError (msg : string).

Definition subgraph_exists_msg (body_name : string) : string :=
  "Subgraph body '" +:+ body_name +:+ "' already exists".

Definition def_kernel_hook_msg : string := "DEF_KERNEL hook already registered".

(** [assert body_name not in self.subgraph_bodies, f"Subgraph body ..."] *)
Definition DuplicateRegionError (body_name : string) : Exception :=
  AssertionError (Some (subgraph_exists_msg body_name)).

(** The fault of the two [assert "<...>" not in self.render_hooks]
    statements: the one of [store_output] carries no message, the one of
    [def_kernel] carries [def_kernel_hook_msg]. *)
Definition is_DuplicateHookError (e : Exception) : bool :=
  match e with
  | AssertionError None => true
  | AssertionError (Some m) => bool_decide (m = def_kernel_hook_msg)
  | _ => false
  end.

Definition is_DuplicateRegionError (e : Exception) : bool :=
  match e with
  | AssertionError (Some m) => Py.prefix "Subgraph body '" m
  | _ => false
  end.

Inductive Outcome (A : Type) :=
| Returned (a : A)
| Raised (e : Exception).
Arguments Returned {A} a.
Arguments Raised {A} e.

(** ** Collaborators referenced but not defined by the file *)

(** Modelled from the spec: an IR node ([torch._inductor.ir], not part of
    the file) is a buffer reference that "exposes [get_layout()] ... and
    [get_name()]".  The file reads its attribute [name] through
    [getattr(input_node, 'name', ...)] and probes the method through
    [hasattr(input_node, 'get_name')], so both are optional here: [None]
    stands for "attribute or method not there". *)
Record Buffer := {
  buf_name : option string;
  buf_get_name : option string
}.

(** Modelled from the spec: [IndentedBuffer] (imported from
    [torch._inductor.codegen.common]) is "a mutable code buffer (ordered
    sequence of text lines, indentation-aware)".  A line is stored with
    the current indentation in front of it, a blank line is stored empty,
    and [getvalue] is every stored line followed by a newline. *)
Record IndentedBuffer := {
  ib_lines : list string;
  ib_indent : nat
}.

Definition tabwidth : nat := 4.

Definition new_IndentedBuffer : IndentedBuffer :=
  {| ib_lines := []; ib_indent := 0 |}.

Fixpoint spaces (n : nat) : string :=
  match n with
  | O => ""
  | S k => String " " (spaces k)
  end.

Definition ib_prefix (b : IndentedBuffer) : string :=
  spaces (ib_indent b * tabwidth).

Definition ib_writeline (line : string) (b : IndentedBuffer) : IndentedBuffer :=
  {| ib_lines :=
       ib_lines b ++
       [match Py.strip line with
        | EmptyString => ""
        | _ => ib_prefix b +:+ line
        end];
     ib_indent := ib_indent b |}.

Definition newline : string := String (ascii_of_nat 10) EmptyString.

Fixpoint concat_lines (l : list string) : string :=
  match l with
  | [] => ""
  | x :: r => x +:+ newline +:+ concat_lines r
  end.

Definition ib_getvalue (b : IndentedBuffer) : string := concat_lines (ib_lines b).

(** Modelled from the spec: the Argument Table ([KernelArgs], reached as
    [self.args], set up by the base class [Kernel]) is "two mappings,
    input-buffer-name to symbol and output-buffer-name to symbol, both
    keyed by the external buffer's name".  Python dictionaries keep
    insertion order, which is the order a consumer iterates them in. *)
Record KernelArgs := {
  input_buffers : list (string * string);
  output_buffers : list (string * string)
}.

Definition new_KernelArgs : KernelArgs :=
  {| input_buffers := []; output_buffers := [] |}.

(** ** The kernel object *)

(** A reference to an [IndentedBuffer] object in the object store. *)
Abbreviation ref := nat (only parsing).

(** [CuteDSLSubgraphInfo]: exactly the three declared dataclass fields. *)
Record CuteDSLSubgraphInfo := {
  sg_body : ref;
  sg_template_mask : option string;
  sg_template_out : option string
}.

(** The two closures named [hook] capture [self] only; which one it is
    suffices to run it. *)
Inductive Hook := StoreOutputHook | DefKernelHook.

Record CuteDSLTemplateKernel := {
  kernel_name : string;
  input_nodes : list Buffer;
  output_node : option Buffer;
  subgraph_bodies : gmap string CuteDSLSubgraphInfo;
  body : ref;
  template_mask : option string;
  template_out : option string;
  template_indices : option (list string);
  render_hooks : gmap string Hook;
  named_input_nodes : list (string * Buffer);
  args : option KernelArgs;
  (** the [IndentedBuffer] objects allocated so far *)
  store : list IndentedBuffer
}.

Definition set_subgraph_bodies (f : gmap string CuteDSLSubgraphInfo -> gmap string CuteDSLSubgraphInfo)
    (self : CuteDSLTemplateKernel) : CuteDSLTemplateKernel :=
  {| kernel_name := kernel_name self; input_nodes := input_nodes self;
     output_node := output_node self;
     subgraph_bodies := f (subgraph_bodies self);
     body := body self; template_mask := template_mask self;
     template_out := template_out self;
     template_indices := template_indices self;
     render_hooks := render_hooks self;
     named_input_nodes := named_input_nodes self;
     args := args self; store := store self |}.

Definition set_body (b : ref) (self : CuteDSLTemplateKernel) : CuteDSLTemplateKernel :=
  {| kernel_name := kernel_name self; input_nodes := input_nodes self;
     output_node := output_node self;
     subgraph_bodies := subgraph_bodies self;
     body := b; template_mask := template_mask self;
     template_out := template_out self;
     template_indices := template_indices self;
     render_hooks := render_hooks self;
     named_input_nodes := named_input_nodes self;
     args := args self; store := store self |}.

Definition set_template_mask (m : option string) (self : CuteDSLTemplateKernel)
  : CuteDSLTemplateKernel :=
  {| kernel_name := kernel_name self; input_nodes := input_nodes self;
     output_node := output_node self;
     subgraph_bodies := subgraph_bodies self;
     body := body self; template_mask := m;
     template_out := template_out self;
     template_indices := template_indices self;
     render_hooks := render_hooks self;
     named_input_nodes := named_input_nodes self;
     args := args self; store := store self |}.

Definition set_template_out (o : option string) (self : CuteDSLTemplateKernel)
  : CuteDSLTemplateKernel :=
  {| kernel_name := kernel_name self; input_nodes := input_nodes self;
     output_node := output_node self;
     subgraph_bodies := subgraph_bodies self;
     body := body self; template_mask := template_mask self;
     template_out := o;
     template_indices := template_indices self;
     render_hooks := render_hooks self;
     named_input_nodes := named_input_nodes self;
     args := args self; store := store self |}.

Definition set_template_indices (i : option (list string)) (self : CuteDSLTemplateKernel)
  : CuteDSLTemplateKernel :=
  {| kernel_name := kernel_name self; input_nodes := input_nodes self;
     output_node := output_node self;
     subgraph_bodies := subgraph_bodies self;
     body := body self; template_mask := template_mask self;
     template_out := template_out self;
     template_indices := i;
     render_hooks := render_hooks self;
     named_input_nodes := named_input_nodes self;
     args := args self; store := store self |}.

Definition set_render_hooks (f : gmap string Hook -> gmap string Hook)
    (self : CuteDSLTemplateKernel) : CuteDSLTemplateKernel :=
  {| kernel_name := kernel_name self; input_nodes := input_nodes self;
     output_node := output_node self;
     subgraph_bodies := subgraph_bodies self;
     body := body self; template_mask := template_mask self;
     template_out := template_out self;
     template_indices := template_indices self;
     render_hooks := f (render_hooks self);
     named_input_nodes := named_input_nodes self;
     args := args self; store := store self |}.

Definition set_named_input_nodes (f : list (string * Buffer) -> list (string * Buffer))
    (self : CuteDSLTemplateKernel) : CuteDSLTemplateKernel :=
  {| kernel_name := kernel_name self; input_nodes := input_nodes self;
     output_node := output_node self;
     subgraph_bodies := subgraph_bodies self;
     body := body self; template_mask := template_mask self;
     template_out := template_out self;
     template_indices := template_indices self;
     render_hooks := render_hooks self;
     named_input_nodes := f (named_input_nodes self);
     args := args self; store := store self |}.

Definition set_args (a : option KernelArgs) (self : CuteDSLTemplateKernel)
  : CuteDSLTemplateKernel :=
  {| kernel_name := kernel_name self; input_nodes := input_nodes self;
     output_node := output_node self;
     subgraph_bodies := subgraph_bodies self;
     body := body self; template_mask := template_mask self;
     template_out := template_out self;
     template_indices := template_indices self;
     render_hooks := render_hooks self;
     named_input_nodes := named_input_nodes self;
     args := a; store := store self |}.

Definition set_store (f : list IndentedBuffer -> list IndentedBuffer)
    (self : CuteDSLTemplateKernel) : CuteDSLTemplateKernel :=
  {| kernel_name := kernel_name self; input_nodes := input_nodes self;
     output_node := output_node self;
     subgraph_bodies := subgraph_bodies self;
     body := body self; template_mask := template_mask self;
     template_out := template_out self;
     template_indices := template_indices self;
     render_hooks := render_hooks self;
     named_input_nodes := named_input_nodes self;
     args := args self; store := f (store self) |}.

(** ** Methods: state and exceptions *)

Definition Method (A : Type) : Type :=
  CuteDSLTemplateKernel -> Outcome A * CuteDSLTemplateKernel.

#[global] Instance Method_ret : MRet Method :=
  fun A a self => (Returned a, self).

#[global] Instance Method_bind : MBind Method :=
  fun A B k m self =>
    match m self with
    | (Returned a, self') => k a self'
    | (Raised e, self') => (Raised e, self')
    end.

Definition raise {A : Type} (e : Exception) : Method A :=
  fun self => (Raised e, self).

Definition modify (f : CuteDSLTemplateKernel -> CuteDSLTemplateKernel) : Method unit :=
  fun self => (Returned tt, f self).

(** [assert c, msg] *)
Definition py_assert (c : bool) (msg : option string) : Method unit :=
  if c then mret tt else raise (AssertionError msg).

(** [IndentedBuffer()]: a fresh object, returned by reference. *)
Definition alloc_IndentedBuffer (self : CuteDSLTemplateKernel)
  : ref * CuteDSLTemplateKernel :=
  (length (store self), set_store (fun h => h ++ [new_IndentedBuffer]) self).

(** The object a reference denotes (every reference held by a kernel was
    produced by [alloc_IndentedBuffer], hence is in range). *)
Definition deref (h : list IndentedBuffer) (r : ref) : IndentedBuffer :=
  default new_IndentedBuffer (h !! r).

(** [self.body.writeline(line)] *)
Definition body_writeline (line : string) : Method unit :=
  modify (fun self =>
    set_store (fun h => <[body self := ib_writeline line (deref h (body self))]> h) self).

(** [self.body.getvalue()] *)
Definition body_getvalue (self : CuteDSLTemplateKernel) : string :=
  ib_getvalue (deref (store self) (body self)).

(** ** Region store: [set_subgraph_body] and [create_subgraph_body] *)

(** The dictionary comprehension
    [{key.name: getattr(self, key.name) for key in fields(CuteDSLSubgraphInfo)}]:
    the kernel's current value of each of the three dataclass fields. *)
Definition snapshot (self : CuteDSLTemplateKernel) : CuteDSLSubgraphInfo :=
  {| sg_body := body self;
     sg_template_mask := template_mask self;
     sg_template_out := template_out self |}.

(** [for key, value in d.items(): setattr(self, key, value)] *)
Definition load (d : CuteDSLSubgraphInfo) (self : CuteDSLTemplateKernel)
  : CuteDSLTemplateKernel :=
  set_template_out (sg_template_out d)
    (set_template_mask (sg_template_mask d) (set_body (sg_body d) self)).

(** [self.subgraph_bodies[body_name] = CuteDSLSubgraphInfo(body=IndentedBuffer(),
    template_mask=None, template_out=None)] *)
Definition fresh_subgraph (body_name : string) (self : CuteDSLTemplateKernel)
  : CuteDSLTemplateKernel :=
  let '(b, self') := alloc_IndentedBuffer self in
  set_subgraph_bodies
    (insert body_name {| sg_body := b; sg_template_mask := None; sg_template_out := None |})
    self'.

(** [set_subgraph_body] up to its [yield]: auto-create, then load.  (The
    [assert all(hasattr ...)] in front holds of every kernel object.) *)
Definition set_subgraph_body_enter (body_name : string) (self : CuteDSLTemplateKernel)
  : CuteDSLTemplateKernel :=
  let self1 :=
    match subgraph_bodies self !! body_name with
    | None => fresh_subgraph body_name self
    | Some _ => self
    end in
  match subgraph_bodies self1 !! body_name with
  | Some subgraph => load subgraph self1
  | None => self1
  end.

(** The [finally] block: save the current fields under [body_name], then
    restore [old_state]. *)
Definition set_subgraph_body_exit (body_name : string) (old_state : CuteDSLSubgraphInfo)
    (self : CuteDSLTemplateKernel) : CuteDSLTemplateKernel :=
  load old_state (set_subgraph_bodies (insert body_name (snapshot self)) self).

(** [with self.set_subgraph_body(body_name): scope].  The [finally] block
    runs whether [scope] returns or raises, and the outcome of [scope] is
    the outcome of the statement. *)
Definition set_subgraph_body {A : Type} (body_name : string) (scope : Method A)
  : Method A :=
  fun self =>
    let old_state := snapshot self in
    let '(r, self') := scope (set_subgraph_body_enter body_name self) in
    (r, set_subgraph_body_exit body_name old_state self').

(** [with self.create_subgraph_body(body_name): scope] *)
Definition create_subgraph_body {A : Type} (body_name : string) (scope : Method A)
  : Method A :=
  fun self =>
    match subgraph_bodies self !! body_name with
    | Some _ => (Raised (DuplicateRegionError body_name), self)
    | None => set_subgraph_body body_name scope (fresh_subgraph body_name self)
    end.

(** ** Template-facing operations *)

(** Either [hook] closure: [self.cse.invalidate(OrderedSet())] does nothing
    ([SimpleCuteDSLCSE.invalidate] is [pass]); the result is
    [self.body.getvalue().strip()], with [self.body] read when the hook
    runs. *)
Definition call_hook (h : Hook) : Method string :=
  match h with
  | StoreOutputHook => fun self => (Returned (Py.strip (body_getvalue self)), self)
  | DefKernelHook => fun self => (Returned (Py.strip (body_getvalue self)), self)
  end.

(** [assert token not in self.render_hooks, msg; self.render_hooks[token] = hook] *)
Definition register_hook (token : string) (msg : option string) (hook : Hook)
  : Method unit :=
  fun self =>
    match render_hooks self !! token with
    | Some _ => (Raised (AssertionError msg), self)
    | None => (Returned tt, set_render_hooks (insert token hook) self)
    end.

Definition store_output (indices : option (list string)) (val : string)
    (mask : option string) (indent_width : nat) : Method string :=
  create_subgraph_body "<STORE_OUTPUT>" (
    modify (set_template_mask mask);;
    modify (set_template_out (Some val));;
    modify (set_template_indices
              (Some (match indices with
                     | Some (i :: r) => i :: r
                     | _ => []
                     end)));;
    body_writeline ("# Store output: " +:+ val);;
    if Py.truthy_str mask
    then body_writeline ("# Mask: " +:+ default "" mask)
    else mret tt);;
  register_hook "<STORE_OUTPUT>" None StoreOutputHook;;
  mret "<STORE_OUTPUT>".

(** [self.args]: absent (or [None]) makes every use an [AttributeError]. *)
Definition get_args : Method KernelArgs :=
  fun self =>
    match args self with
    | Some a => (Returned a, self)
    | None => (Raised (AttributeError "args"), self)
    end.

(** [node.get_name()] *)
Definition call_get_name (node : Buffer) : Method string :=
  match buf_get_name node with
  | Some n => mret n
  | None => raise (AttributeError "get_name")
  end.

(** The loop over [zip(argnames, self.input_nodes)]. *)
Fixpoint bind_inputs (pairs : list (string * Buffer)) : Method unit :=
  match pairs with
  | [] => mret tt
  | (name, input_node) :: rest =>
      modify (set_named_input_nodes (Py.dict_set name input_node));;
      a ← get_args;
      outer ← call_get_name input_node;
      modify (set_args (Some {| input_buffers := Py.dict_set outer name (input_buffers a);
                                output_buffers := output_buffers a |}));;
      bind_inputs rest
  end.

Definition bind_output : Method unit :=
  fun self =>
    match output_node self with
    | None => (Returned tt, self)
    | Some out =>
        (a ← get_args;
         outer ← call_get_name out;
         modify (set_args (Some {| input_buffers := input_buffers a;
                                   output_buffers := Py.dict_set outer "output" (output_buffers a) |})))
        self
    end.

Definition def_kernel (argnames : list string) : Method string :=
  (if (0 <? length argnames)%nat
   then fun self => bind_inputs (zip argnames (input_nodes self)) self
   else mret tt);;
  bind_output;;
  create_subgraph_body "<DEF_KERNEL>" (fun self =>
    match argnames with
    | _ :: _ =>
        let args_str := Py.join ", " argnames in
        (body_writeline ("# CuteDSL kernel function: " +:+ kernel_name self);;
         body_writeline ("# Arguments: " +:+ args_str);;
         body_writeline ("def " +:+ kernel_name self +:+ "(" +:+ args_str +:+ "):")) self
    | [] =>
        (body_writeline ("# CuteDSL kernel function: " +:+ kernel_name self);;
         body_writeline ("def " +:+ kernel_name self +:+ "():")) self
    end);;
  register_hook "<DEF_KERNEL>" (Some def_kernel_hook_msg) DefKernelHook;;
  mret "<DEF_KERNEL>".

(** ** Construction *)

(** [for i, input_node in enumerate(input_nodes):
       self.named_input_nodes[getattr(input_node, 'name', f'input_{i}')] = input_node] *)
Fixpoint name_inputs (i : nat) (nodes : list Buffer) (d : list (string * Buffer))
  : list (string * Buffer) :=
  match nodes with
  | [] => d
  | input_node :: rest =>
      name_inputs (S i) rest
        (Py.dict_set (default ("input_" +:+ pretty i) (buf_name input_node)) input_node d)
  end.

(** [CuteDSLTemplateKernel(kernel_name, input_nodes, output_node)].  The
    base-class constructor is not part of the file; of what it sets up only
    [self.args] is used here, a fresh empty Argument Table. *)
Definition new_kernel (name : string) (inputs : list Buffer) (output : option Buffer)
  : CuteDSLTemplateKernel :=
  {| kernel_name := name;
     input_nodes := inputs;
     output_node := output;
     subgraph_bodies := ∅;
     body := 0;
     template_mask := None;
     template_out := None;
     template_indices := None;
     render_hooks := ∅;
     named_input_nodes := name_inputs 0 inputs [];
     args := Some new_KernelArgs;
     store := [new_IndentedBuffer] |}.

(** ** Compiler-facing operations *)

(** A keyword argument value supplied by the caller of [render]. *)
Inductive Value :=
| VStr (s : string)
| VInt (z : Z)
| VBool (b : bool).










Section CallKernel.

(** The Argument Table class is not part of the file: the truth value of
    a table object ([if ... and self.args]) and the argument-binding
    service [python_argdefs], which returns
    [(arg_defs, call_args, precompile_args, arg_types)]. *)
Variable args_truthy : KernelArgs -> bool.
Variable python_argdefs :
  KernelArgs -> list string * list string * list string * list string.


End CallKernel.

(** ** Scope bodies

    What the code inside a [with] block of the file does to the kernel:
    assign the template attributes, write a line to the current body,
    raise, or open a further region. *)
Inductive stmt :=
| Pass
| Seq (s1 s2 : stmt)
| SetTemplateMask (m : option string)
| SetTemplateOut (o : option string)
| SetTemplateIndices (i : option (list string))
| Writeline (line : string)
| Raise (e : Exception)
| WithSet (body_name : string) (s : stmt)
| WithCreate (body_name : string) (s : stmt).

Fixpoint exec (s : stmt) : Method unit :=
  match s with
  | Pass => mret tt
  | Seq s1 s2 => exec s1;; exec s2
  | SetTemplateMask m => modify (set_template_mask m)
  | SetTemplateOut o => modify (set_template_out o)
  | SetTemplateIndices i => modify (set_template_indices i)
  | Writeline line => body_writeline line
  | Raise e => raise e
  | WithSet body_name s => set_subgraph_body body_name (exec s)
  | WithCreate body_name s => create_subgraph_body body_name (exec s)
  end.

(** ** Example kernels *)

Definition buf (n : string) : Buffer := {| buf_name := Some n; buf_get_name := Some n |}.

Definition k_abc : CuteDSLTemplateKernel :=
  new_kernel "k" [buf "a"; buf "b"] (Some (buf "c")).


(** The kernel after its template called [def_kernel("x", "y")]. *)
Definition k_abc_defined : CuteDSLTemplateKernel :=
  (def_kernel ["x"; "y"] k_abc).2.

(** The kernel after its template called
    [store_output([i, j], "v", "m")]. *)
Definition k_abc_stored : CuteDSLTemplateKernel :=
  (store_output (Some ["i"; "j"]) "v" (Some "m") 4 k_abc).2.

(** The text held by the buffer of a stored region. *)
Definition region_text (body_name : string) (self : CuteDSLTemplateKernel)
  : option string :=
  (fun d => ib_getvalue (deref (store self) (sg_body d))) <$>
  subgraph_bodies self !! body_name.

(** No stored region holds the buffer [l]: writing into any region leaves
    [l] alone. *)
Definition unaliased (l : ref) (self : CuteDSLTemplateKernel) : Prop :=
  ∀ n d, subgraph_bodies self !! n = Some d → sg_body d ≠ l.

(** * Vocabulary of the statements *)

(** No region is active: the kernel's current buffer exists and belongs to
    no stored region. *)
Definition outermost (self : CuteDSLTemplateKernel) : Prop :=
  body self < length (store self) ∧ unaliased (body self) self.

(** What a scope body cannot touch: the buffer [l], when it is neither
    the current body nor the body of a stored region. *)
Definition framed (l : ref) (self self' : CuteDSLTemplateKernel) : Prop :=
  body self' = body self ∧
  length (store self) ≤ length (store self') ∧
  store self' !! l = store self !! l ∧
  unaliased l self'.

#[global] Instance unaliased_dec l self : Decision (unaliased l self) :=
  map_Forall_dec (λ (_ : string) d, sg_body d ≠ l) (subgraph_bodies self).

(** The state a freshly created region is entered in. *)
Definition entered_new (body_name : string) (self : CuteDSLTemplateKernel)
  : CuteDSLTemplateKernel :=
  load {| sg_body := length (store self); sg_template_mask := None;
          sg_template_out := None |}
       (fresh_subgraph body_name self).

(** The lines [store_output] writes. *)
Definition store_output_lines (val : string) (mask : option string) : list string :=
  ("# Store output: " +:+ val) ::
  (if Py.truthy_str mask then ["# Mask: " +:+ default "" mask] else []).

(** The name [get_name()] returns for a node that has the method. *)
Definition outer (b : Buffer) : string := default "" (buf_get_name b).

Definition has_get_name (b : Buffer) : Prop := is_Some (buf_get_name b).

(** The input table after binding [pairs] one after the other. *)
Definition bind_table (d : list (string * string)) (pairs : list (string * Buffer))
  : list (string * string) :=
  foldl (λ d p, Py.dict_set (outer p.2) p.1 d) d pairs.

Definition bind_names (d : list (string * Buffer)) (pairs : list (string * Buffer))
  : list (string * Buffer) :=
  foldl (λ d p, Py.dict_set p.1 p.2 d) d pairs.

(** The Argument Table a call of [def_kernel] with [argnames] leaves behind. *)
Definition bound_args (argnames : list string) (self : CuteDSLTemplateKernel)
    (a : KernelArgs) : KernelArgs :=
  {| input_buffers := bind_table (input_buffers a) (zip argnames (input_nodes self));
     output_buffers :=
       match output_node self with
       | Some out => Py.dict_set (outer out) "output" (output_buffers a)
       | None => output_buffers a
       end |}.

(** The lines [def_kernel] writes. *)
Definition def_kernel_lines (name : string) (argnames : list string) : list string :=
  match argnames with
  | [] => ["# CuteDSL kernel function: " +:+ name; "def " +:+ name +:+ "():"]
  | _ => ["# CuteDSL kernel function: " +:+ name;
          "# Arguments: " +:+ Py.join ", " argnames;
          "def " +:+ name +:+ "(" +:+ Py.join ", " argnames +:+ "):"]
  end.

(** The first two steps of [def_kernel]: binding inputs and output. *)
Definition bind_phase (argnames : list string) : Method unit :=
  (if 0 <? length argnames
   then fun self => bind_inputs (zip argnames (input_nodes self)) self
   else mret tt);;
  bind_output.

(** Two kernels that differ at most in the Argument Table and in
    [named_input_nodes]. *)
Definition rebound (self self' : CuteDSLTemplateKernel) : Prop :=
  self' = set_args (args self') (set_named_input_nodes (λ _, named_input_nodes self') self).

Definition attribute_fault {A : Type} (r : Outcome A) : Prop :=
  match r with
  | Returned _ => True
  | Raised e => ∃ attr, e = AttributeError attr
  end.

(** When the binding steps of [def_kernel] go through. *)
Definition bindable (argnames : list string) (self : CuteDSLTemplateKernel) : Prop :=
  Forall (λ p, has_get_name p.2) (zip argnames (input_nodes self)) ∧
  (∀ out, output_node self = Some out → has_get_name out) ∧
  (zip argnames (input_nodes self) ≠ [] ∨ output_node self ≠ None →
   is_Some (args self)).

(** The body of the [with] block of [def_kernel]. *)
Definition def_kernel_scope (argnames : list string) : Method unit :=
  fun self =>
    match argnames with
    | _ :: _ =>
        let args_str := Py.join ", " argnames in
        (body_writeline ("# CuteDSL kernel function: " +:+ kernel_name self);;
         body_writeline ("# Arguments: " +:+ args_str);;
         body_writeline ("def " +:+ kernel_name self +:+ "(" +:+ args_str +:+ "):")) self
    | [] =>
        (body_writeline ("# CuteDSL kernel function: " +:+ kernel_name self);;
         body_writeline ("def " +:+ kernel_name self +:+ "():")) self
    end.

(** [def_kernel] after the binding steps. *)
Definition def_kernel_tail (argnames : list string) : Method string :=
  create_subgraph_body "<DEF_KERNEL>" (def_kernel_scope argnames);;
  register_hook "<DEF_KERNEL>" (Some def_kernel_hook_msg) DefKernelHook;;
  mret "<DEF_KERNEL>".

(** A kernel with three inputs, the last of which has no [get_name]. *)
Definition k_three : CuteDSLTemplateKernel :=
  new_kernel "k3"
    [buf "a"; buf "b"; {| buf_name := None; buf_get_name := None |}]
    (Some (buf "c")).




(** The Argument Table of the kernel with inputs [a], [b] and output [c]
    after [def_kernel("x", "y")]. *)
Definition table_abc : KernelArgs :=
  {| input_buffers := [("a", "x"); ("b", "y")];
     output_buffers := [("c", "output")] |}.


(** * The base class [CuteDSLKernel]

    Its attributes are independent of the template attributes above (no
    method of either class touches the other's), so they are kept in a
    record of their own. *)

(** Modelled from the spec: what [buffer.get_layout()] yields,
    "[{size, stride?, dtype, device}]"; [layout_stride] is [None] for a
    layout object without a [stride] attribute. *)
Record Layout := {
  layout_size : list Z;
  layout_stride : option (list Z);
  layout_dtype : string;
  layout_device : string
}.

(** Modelled from the spec: the buffer handed to
    [create_cute_tensor_spec], of which only [get_layout()] is used; the
    accessor is external and may fault. *)
Record LayoutBuffer := {
  get_layout : Outcome Layout
}.

(** The dictionary [create_cute_tensor_spec] builds, by key. *)
Record TensorSpec := {
  spec_name : string;
  spec_shape : list Z;
  spec_stride : option (list Z);
  spec_dtype : string;
  spec_device : string
}.

Record CuteDSLKernel := {
  cute_tensors : gmap string TensorSpec;
  kernel_config : gmap string (list Z);
  grid_config : option (list Z);
  tensor_layouts : gmap string Layout;
  cutlass_args : list (string * Value)
}.

(** The attributes [CuteDSLKernel.__init__] sets. *)
Definition new_CuteDSLKernel : CuteDSLKernel :=
  {| cute_tensors := ∅; kernel_config := ∅; grid_config := None;
     tensor_layouts := ∅; cutlass_args := [] |}.

Definition create_cute_tensor_spec (buffer : LayoutBuffer) (name : string)
    (self : CuteDSLKernel) : Outcome TensorSpec * CuteDSLKernel :=
  match get_layout buffer with
  | Raised e => (Raised e, self)
  | Returned layout =>
      let spec := {| spec_name := name;
                     spec_shape := layout_size layout;
                     spec_stride := layout_stride layout;
                     spec_dtype := layout_dtype layout;
                     spec_device := layout_device layout |} in
      (Returned spec,
       {| cute_tensors := <[name := spec]> (cute_tensors self);
          kernel_config := kernel_config self;
          grid_config := grid_config self;
          tensor_layouts := tensor_layouts self;
          cutlass_args := cutlass_args self |})
  end.

(** Truth value of an optional tuple: [None] and [()] are falsy. *)
Definition truthy_tuple (t : option (list Z)) : bool :=
  match t with
  | Some (_ :: _) => true
  | _ => false
  end.

Definition configure_kernel_launch (grid : list Z) (block_config : option (list Z))
    (self : CuteDSLKernel) : CuteDSLKernel :=
  let config := <["grid" := grid]> (kernel_config self) in
  {| cute_tensors := cute_tensors self;
     kernel_config :=
       if truthy_tuple block_config
       then <["block" := default [] block_config]> config
       else config;
     grid_config := Some grid;
     tensor_layouts := tensor_layouts self;
     cutlass_args := cutlass_args self |}.

Definition add_cutlass_arg (arg_name : string) (arg_value : Value)
    (self : CuteDSLKernel) : CuteDSLKernel :=
  {| cute_tensors := cute_tensors self;
     kernel_config := kernel_config self;
     grid_config := grid_config self;
     tensor_layouts := tensor_layouts self;
     cutlass_args := cutlass_args self ++ [(arg_name, arg_value)] |}.

Definition get_cute_tensor_conversion_code (buffer_name target_name : string) : string :=
  target_name +:+ " = cute.tensor_from_dlpack(" +:+ buffer_name +:+ ")".

(** A call of one of the three mutating methods, and a run of such calls;
    a call of [create_cute_tensor_spec] whose accessor faults is taken to
    be caught by the caller, the run goes on from the state it left. *)
Inductive base_call :=
| CallSpec (buffer : LayoutBuffer) (name : string)
| CallLaunch (grid : list Z) (block_config : option (list Z))
| CallArg (arg_name : string) (arg_value : Value).

Definition run_call (c : base_call) (self : CuteDSLKernel) : CuteDSLKernel :=
  match c with
  | CallSpec buffer name => (create_cute_tensor_spec buffer name self).2
  | CallLaunch grid block_config => configure_kernel_launch grid block_config self
  | CallArg arg_name arg_value => add_cutlass_arg arg_name arg_value self
  end.

Definition run_calls (cs : list base_call) (self : CuteDSLKernel) : CuteDSLKernel :=
  foldl (λ s c, run_call c s) self cs.

(** The arguments a run of calls adds, in call order. *)
Definition added_args (cs : list base_call) : list (string * Value) :=
  omap (λ c, match c with CallArg n v => Some (n, v) | _ => None end) cs.

(** The block a run of calls leaves configured: that of the last launch
    configuration given with a non-empty block. *)
Definition last_block (cs : list base_call) (start : option (list Z)) : option (list Z) :=
  foldl (λ b c, match c with
                | CallLaunch _ block_config =>
                    if truthy_tuple block_config then block_config else b
                | _ => b
                end) start cs.

(** The grid a run of calls leaves configured. *)
Definition last_grid (cs : list base_call) (start : option (list Z)) : option (list Z) :=
  foldl (λ g c, match c with CallLaunch grid _ => Some grid | _ => g end) start cs.

(** The specification [create_cute_tensor_spec] builds from a layout. *)
Definition spec_of (layout : Layout) (name : string) : TensorSpec :=
  {| spec_name := name;
     spec_shape := layout_size layout;
     spec_stride := layout_stride layout;
     spec_dtype := layout_dtype layout;
     spec_device := layout_device layout |}.

(** The specification a run of calls leaves under [name]: that of the last
    call of [create_cute_tensor_spec] for [name] whose accessor answered. *)
Definition last_spec (name : string) (cs : list base_call) (start : option TensorSpec)
  : option TensorSpec :=
  foldl (λ o c, match c with
                | CallSpec buffer n =>
                    if decide (n = name)
                    then match get_layout buffer with
                         | Returned layout => Some (spec_of layout n)
                         | Raised _ => o
                         end
                    else o
                | _ => o
                end) start cs.

(** * More vocabulary: regions and their buffers *)

(** The statement opens a scope of region [B] somewhere. *)
Fixpoint enters (B : string) (s : stmt) : bool :=
  match s with
  | Seq s1 s2 => enters B s1 || enters B s2
  | WithSet body_name s' => bool_decide (body_name = B) || enters B s'
  | WithCreate body_name s' => bool_decide (body_name = B) || enters B s'
  | _ => false
  end.

(** Every stored region holds a buffer of the object store, and no two
    regions hold the same one. *)
Definition regions_wf (self : CuteDSLTemplateKernel) : Prop :=
  map_Forall (λ _ d, sg_body d < length (store self)) (subgraph_bodies self) ∧
  map_Forall (λ n dn,
    map_Forall (λ m dm, sg_body dn = sg_body dm → n = m) (subgraph_bodies self))
    (subgraph_bodies self).

#[global] Instance regions_wf_dec self : Decision (regions_wf self) :=
  and_dec _ _.

(** The lines held by the buffer of a stored region. *)
Definition region_lines (body_name : string) (self : CuteDSLTemplateKernel)
  : option (list string) :=
  (λ d, ib_lines (deref (store self) (sg_body d))) <$> subgraph_bodies self !! body_name.

(** The [with] block of [store_output] as a statement. *)
Definition store_output_stmt (indices : option (list string)) (val : string)
    (mask : option string) : stmt :=
  Seq (SetTemplateMask mask)
    (Seq (SetTemplateOut (Some val))
       (Seq (SetTemplateIndices
               (Some (match indices with
                      | Some (i :: r) => i :: r
                      | _ => []
                      end)))
          (Seq (Writeline ("# Store output: " +:+ val))
             (if Py.truthy_str mask
              then Writeline ("# Mask: " +:+ default "" mask)
              else Pass)))).

(** The [with] block of [def_kernel] as a statement, for a kernel called
    [name]. *)
Definition def_kernel_stmt (name : string) (argnames : list string) : stmt :=
  match argnames with
  | _ :: _ =>
      Seq (Writeline ("# CuteDSL kernel function: " +:+ name))
        (Seq (Writeline ("# Arguments: " +:+ Py.join ", " argnames))
             (Writeline ("def " +:+ name +:+ "(" +:+ Py.join ", " argnames +:+ "):")))
  | [] =>
      Seq (Writeline ("# CuteDSL kernel function: " +:+ name))
          (Writeline ("def " +:+ name +:+ "():"))
  end.

(** Every registered hook has its region. *)
Definition hooks_have_regions (self : CuteDSLTemplateKernel) : Prop :=
  ∀ token h, render_hooks self !! token = Some h →
             is_Some (subgraph_bodies self !! token).

(** The key [__init__] files the input at position [i] under. *)
Definition input_key (i : nat) (node : Buffer) : string :=
  default ("input_" +:+ pretty i) (buf_name node).

(** Between two states of a kernel: every region of the later state holds
    the buffer it held in the earlier one, or, if it is new, a buffer
    allocated since. *)
Definition bodies_kept (self self' : CuteDSLTemplateKernel) : Prop :=
  ∀ n d', subgraph_bodies self' !! n = Some d' →
          match subgraph_bodies self !! n with
          | Some d => sg_body d' = sg_body d
          | None => length (store self) ≤ sg_body d'
          end.

(** Between two states of a kernel: no buffer and no region was dropped. *)
Definition grows (self self' : CuteDSLTemplateKernel) : Prop :=
  length (store self) ≤ length (store self') ∧
  ∀ n, is_Some (subgraph_bodies self !! n) → is_Some (subgraph_bodies self' !! n).

(** What a part of a program does to the regions' frame, when it is run
    from a well-formed state. *)
Definition keeps_regions (scope : Method unit) : Prop :=
  ∀ s0, regions_wf s0 →
        regions_wf (scope s0).2 ∧ body (scope s0).2 = body s0 ∧
        grows s0 (scope s0).2 ∧ bodies_kept s0 (scope s0).2.

(** A part of a program, opening scopes only of the regions [ent] names,
    leaves the buffer [l] alone when [l] is neither the current body nor
    held by a region it enters. *)
Definition keeps_buffer (l : ref) (ent : string → bool) (scope : Method unit) : Prop :=
  ∀ s0, regions_wf s0 → l < length (store s0) → body s0 ≠ l →
        (∀ n d, subgraph_bodies s0 !! n = Some d → sg_body d = l → ent n = false) →
        store (scope s0).2 !! l = store s0 !! l.

(** * Region store: save and restore *)

Section Frame.

Variable l : ref.

Lemma framed_enter body_name self :
  l < length (store self) → unaliased l self →
  let self1 := set_subgraph_body_enter body_name self in
  body self1 ≠ l ∧
  length (store self) ≤ length (store self1) ∧
  store self1 !! l = store self !! l ∧
  unaliased l self1.
Proof.
  intros Hl Hun. unfold set_subgraph_body_enter.
  destruct (subgraph_bodies self !! body_name) as [d|] eqn:E.
  - rewrite E. cbn. split_and!; eauto.
  - unfold fresh_subgraph. cbn. rewrite lookup_insert_eq. cbn.
    split_and!.
    + lia.
    + rewrite length_app. lia.
    + apply lookup_app_l. done.
    + intros n d. cbn. destruct (decide (body_name = n)) as [->|Hne].
      * rewrite lookup_insert_eq. intros [= <-]. cbn. lia.
      * rewrite lookup_insert_ne by done. apply Hun.
Qed.

Lemma unaliased_exit body_name old self :
  body self ≠ l → unaliased l self →
  unaliased l (set_subgraph_body_exit body_name old self).
Proof.
  intros Hb Hun n d. unfold set_subgraph_body_exit. cbn.
  destruct (decide (body_name = n)) as [->|Hne].
  - rewrite lookup_insert_eq. intros [= <-]. done.
  - rewrite lookup_insert_ne by done. apply Hun.
Qed.

Lemma framed_set_subgraph_body (scope : Method unit) body_name self :
  (∀ s0, l < length (store s0) → body s0 ≠ l → unaliased l s0 →
         framed l s0 (scope s0).2) →
  l < length (store self) → unaliased l self →
  framed l self (set_subgraph_body body_name scope self).2.
Proof.
  intros Hscope Hl Hun. unfold set_subgraph_body.
  destruct (framed_enter body_name self Hl Hun) as (Hb1 & Hlen1 & Hst1 & Hun1).
  specialize (Hscope (set_subgraph_body_enter body_name self)).
  destruct (scope (set_subgraph_body_enter body_name self)) as [r self2].
  destruct Hscope as (Hb2 & Hlen2 & Hst2 & Hun2); [lia|done|done|].
  cbn [snd] in *.
  split_and!; [| | |apply unaliased_exit; [congruence|done]];
    unfold set_subgraph_body_exit; cbn; [done|lia|].
  congruence.
Qed.

Lemma framed_create_subgraph_body (scope : Method unit) body_name self :
  (∀ s0, l < length (store s0) → body s0 ≠ l → unaliased l s0 →
         framed l s0 (scope s0).2) →
  l < length (store self) → unaliased l self →
  framed l self (create_subgraph_body body_name scope self).2.
Proof.
  intros Hscope Hl Hun. unfold create_subgraph_body.
  destruct (subgraph_bodies self !! body_name) as [d|] eqn:E.
  - by split_and!.
  - assert (framed l (fresh_subgraph body_name self)
              (set_subgraph_body body_name scope (fresh_subgraph body_name self)).2)
      as (Hb2 & Hlen2 & Hst2 & Hun2).
    { apply framed_set_subgraph_body; [done| |].
      - cbn. rewrite length_app. lia.
      - intros n d. cbn. destruct (decide (body_name = n)) as [->|Hne].
        + rewrite lookup_insert_eq. intros [= <-]. cbn. lia.
        + rewrite lookup_insert_ne by done. apply Hun. }
    cbn in *. rewrite length_app in Hlen2.
    split_and!; [done|lia| |done].
    rewrite Hst2. by apply lookup_app_l.
Qed.

Lemma framed_exec (s : stmt) :
  ∀ self, l < length (store self) → body self ≠ l → unaliased l self →
          framed l self (exec s self).2.
Proof.
  induction s as [|s1 IH1 s2 IH2|m|o|i|line|e|body_name s IH|body_name s IH];
    intros self Hl Hb Hun; cbn [exec].
  - by split_and!.
  - unfold mbind, Method_bind.
    specialize (IH1 self Hl Hb Hun).
    destruct (exec s1 self) as [[[]|e] self1]; cbn in IH1; [|done].
    destruct IH1 as (Hb1 & Hlen1 & Hst1 & Hun1).
    specialize (IH2 self1). destruct IH2 as (Hb2 & Hlen2 & Hst2 & Hun2);
      [lia|congruence|done|].
    split_and!; [congruence|lia|congruence|done].
  - by split_and!.
  - by split_and!.
  - by split_and!.
  - unfold framed, body_writeline, modify. cbn [snd body store set_store subgraph_bodies unaliased].
    split_and!; [done| | |done].
    { by rewrite length_insert. }
    by apply list_lookup_insert_ne.
  - by split_and!.
  - apply framed_set_subgraph_body; [|done..].
    intros s0 ? ? ?. by apply IH.
  - apply framed_create_subgraph_body; [|done..].
    intros s0 ? ? ?. by apply IH.
Qed.

End Frame.

(** Every kernel starts with no region active, and statements run outside
    any region keep it so. *)
Lemma outermost_new_kernel name inputs output :
  outermost (new_kernel name inputs output).
Proof.
  split; [cbn; lia|]. intros n d. cbn. by rewrite lookup_empty.
Qed.

Lemma outermost_exec (s : stmt) :
  ∀ self, outermost self → outermost (exec s self).2.
Proof.
  induction s as [|s1 IH1 s2 IH2|m|o|i|line|e|body_name s IH|body_name s IH];
    intros self [Hl Hun]; cbn [exec]; try done.
  - unfold mbind, Method_bind.
    specialize (IH1 self (conj Hl Hun)).
    destruct (exec s1 self) as [[[]|e] self1]; cbn [snd] in *; [|done].
    by apply IH2.
  - split; cbn; [by rewrite length_insert|done].
  - destruct (framed_set_subgraph_body (body self) (exec s) body_name self)
      as (Hb & Hlen & _ & Hun'); [|done..|].
    { intros s0 ? ? ?. by apply framed_exec. }
    unfold outermost. rewrite Hb. split; [lia|done].
  - destruct (framed_create_subgraph_body (body self) (exec s) body_name self)
      as (Hb & Hlen & _ & Hun'); [|done..|].
    { intros s0 ? ? ?. by apply framed_exec. }
    unfold outermost. rewrite Hb. split; [lia|done].
Qed.

(** The [finally] block restores the three mirrored fields whatever the
    scope did and however it ended. *)
Lemma set_subgraph_body_restores_fields {A : Type} (body_name : string)
    (scope : Method A) (self : CuteDSLTemplateKernel) :
  snapshot (set_subgraph_body body_name scope self).2 = snapshot self.
Proof.
  unfold set_subgraph_body.
  destruct (scope (set_subgraph_body_enter body_name self)) as [r self'].
  reflexivity.
Qed.

(** The outcome of the [with] statement is the outcome of its scope. *)
Lemma set_subgraph_body_outcome {A : Type} (body_name : string)
    (scope : Method A) (self : CuteDSLTemplateKernel) :
  (set_subgraph_body body_name scope self).1 =
  (scope (set_subgraph_body_enter body_name self)).1.
Proof.
  unfold set_subgraph_body.
  by destruct (scope (set_subgraph_body_enter body_name self)).
Qed.

(** C1. Stack restore law: for every region name and every scope body made
    of attribute assignments, line writes, faults and further (nested,
    balanced) region scopes, the kernel's mirrored fields after the
    outermost exit are those before the outermost enter: the same body
    buffer with the same contents, the same mask and the same output
    expression.  The outermost enter is one made while no stored region
    holds the kernel's current buffer.  The statement does not look at the
    outcome of the scope, so it covers the scope that does nothing and the
    scope that ends by a fault alike. *)
Theorem set_subgraph_body_restores (body_name : string) (s : stmt)
    (self : CuteDSLTemplateKernel) :
  body self < length (store self) →
  unaliased (body self) self →
  let self' := (set_subgraph_body body_name (exec s) self).2 in
  body self' = body self ∧
  template_mask self' = template_mask self ∧
  template_out self' = template_out self ∧
  deref (store self') (body self') = deref (store self) (body self).
Proof.
  intros Hl Hun self'.
  pose proof (set_subgraph_body_restores_fields body_name (exec s) self) as Hf.
  fold self' in Hf. unfold snapshot in Hf. injection Hf as Hb Hm Ho.
  split_and!; [done..|].
  destruct (framed_set_subgraph_body (body self) (exec s) body_name self)
    as (_ & _ & Hst & _); [|done..|].
  { intros s0 ? ? ?. by apply framed_exec. }
  fold self' in Hst. unfold deref. by rewrite Hb, Hst.
Qed.

(** A scope that writes, re-enters the signature region and is abandoned by
    a fault there: the fault comes out and the fields are restored. *)
Lemma set_subgraph_body_restores_witness :
  let s := Seq (Writeline "acc = 0")
               (WithSet "<DEF_KERNEL>"
                  (Seq (SetTemplateMask (Some "m")) (Raise (OtherError "abandoned")))) in
  let self' := (set_subgraph_body "epilogue" (exec s) k_abc_defined).2 in
  (set_subgraph_body "epilogue" (exec s) k_abc_defined).1 = Raised (OtherError "abandoned") ∧
  body self' = body k_abc_defined ∧
  template_mask self' = template_mask k_abc_defined ∧
  template_out self' = template_out k_abc_defined ∧
  deref (store self') (body self') = deref (store k_abc_defined) (body k_abc_defined).
Proof.
  intros s self'. split; [vm_compute; reflexivity|].
  apply (set_subgraph_body_restores "epilogue" s k_abc_defined).
  - vm_compute. lia.
  - apply (bool_decide_unpack (unaliased (body k_abc_defined) k_abc_defined)).
    vm_compute. exact I.
Defined.



(** * Render hooks *)

(** Either hook returns the trimmed text of whatever buffer is the kernel's
    current body when the hook runs, and changes nothing. *)
Lemma call_hook_reads_current_body (h : Hook) (self : CuteDSLTemplateKernel) :
  call_hook h self = (Returned (Py.strip (body_getvalue self)), self).
Proof. by destruct h. Qed.

(** C2. On the kernel with inputs [a], [b] and output [c], after
    [def_kernel("x", "y")] has returned the [<DEF_KERNEL>] region holds the
    three signature lines, yet the hook registered for [<DEF_KERNEL>]
    returns the empty string: it reads the kernel's current body, which is
    the restored outer buffer.  The same holds of [store_output] and the
    [<STORE_OUTPUT>] hook. *)
Theorem hooks_return_outer_body :
  render_hooks k_abc_defined !! "<DEF_KERNEL>" = Some DefKernelHook ∧
  (Py.strip <$> region_text "<DEF_KERNEL>" k_abc_defined) =
    Some ("# CuteDSL kernel function: k" +:+ newline +:+
          "# Arguments: x, y" +:+ newline +:+ "def k(x, y):") ∧
  (call_hook DefKernelHook k_abc_defined).1 = Returned "" ∧
  render_hooks k_abc_stored !! "<STORE_OUTPUT>" = Some StoreOutputHook ∧
  (Py.strip <$> region_text "<STORE_OUTPUT>" k_abc_stored) =
    Some ("# Store output: v" +:+ newline +:+ "# Mask: m") ∧
  (call_hook StoreOutputHook k_abc_stored).1 = Returned "".
Proof. vm_compute. by split_and!. Qed.

(** C5. After [store_output([i, j], "v", "m")] on the kernel with inputs
    [a], [b] and output [c], the [<STORE_OUTPUT>] region's text names the
    value and, on a line of its own, the mask; the text the hook resolves
    to is empty and names neither. *)
Theorem store_output_hook_text_lacks_value :
  region_text "<STORE_OUTPUT>" k_abc_stored =
    Some ("# Store output: v" +:+ newline +:+ "# Mask: m" +:+ newline) ∧
  ∃ text, (call_hook StoreOutputHook k_abc_stored).1 = Returned text ∧
          Py.contains text "v" = false ∧ Py.contains text "m" = false.
Proof.
  split; [vm_compute; reflexivity|].
  exists "". vm_compute. by split_and!.
Qed.

(** * Buffers and the object store *)

Lemma strip_nonblank (c : ascii) (r : string) :
  Py.is_whitespace c = false → Py.strip (String c r) ≠ "".
Proof.
  intros Hc. unfold Py.strip. cbn [Py.rstrip].
  destruct (Py.rstrip r); rewrite ?Hc; cbn [Py.lstrip]; by rewrite Hc.
Qed.

Lemma ib_writeline_lines (line : string) (b : IndentedBuffer) :
  Py.strip line ≠ "" → ib_indent b = 0 →
  ib_writeline line b = {| ib_lines := ib_lines b ++ [line]; ib_indent := 0 |}.
Proof.
  intros Hne Hi. unfold ib_writeline, ib_prefix. rewrite Hi. cbn.
  by destruct (Py.strip line).
Qed.

Lemma deref_alloc (h : list IndentedBuffer) (b : IndentedBuffer) :
  deref (h ++ [b]) (length h) = b.
Proof. unfold deref. by rewrite list_lookup_middle. Qed.

Lemma deref_insert_eq (h : list IndentedBuffer) (r : nat) (b : IndentedBuffer) :
  r < length h → deref (<[r:=b]> h) r = b.
Proof. intros Hr. unfold deref. by rewrite list_lookup_insert_eq. Qed.

Lemma length_alloc (h : list IndentedBuffer) (b : IndentedBuffer) :
  length h < length (h ++ [b]).
Proof. rewrite length_app. cbn. lia. Qed.

(** * Sequencing and region creation *)

Lemma bind_eq {A B : Type} (m : Method A) (k : A → Method B) self :
  (m ≫= k) self =
  match m self with
  | (Returned a, self') => k a self'
  | (Raised e, self') => (Raised e, self')
  end.
Proof. reflexivity. Qed.

Lemma create_subgraph_body_new {A : Type} (body_name : string) (scope : Method A) self :
  subgraph_bodies self !! body_name = None →
  create_subgraph_body body_name scope self =
  let '(r, self') := scope (entered_new body_name self) in
  (r, set_subgraph_body_exit body_name (snapshot self) self').
Proof.
  intros Hnone. unfold create_subgraph_body. rewrite Hnone.
  unfold set_subgraph_body, set_subgraph_body_enter.
  assert (subgraph_bodies (fresh_subgraph body_name self) !! body_name
          = Some {| sg_body := length (store self); sg_template_mask := None;
                    sg_template_out := None |}) as Hc.
  { unfold fresh_subgraph. cbn. apply lookup_insert_eq. }
  by rewrite Hc, Hc.
Qed.

Lemma create_subgraph_body_exists {A : Type} (body_name : string) (scope : Method A) self :
  is_Some (subgraph_bodies self !! body_name) →
  create_subgraph_body body_name scope self =
  (Raised (DuplicateRegionError body_name), self).
Proof. intros [d Hd]. unfold create_subgraph_body. by rewrite Hd. Qed.

Lemma nonblank_hash (line : string) : Py.strip ("# " +:+ line) ≠ "".
Proof. by apply strip_nonblank. Qed.

(** * [store_output] *)

Lemma store_output_region_exists indices val mask w self :
  is_Some (subgraph_bodies self !! "<STORE_OUTPUT>") →
  store_output indices val mask w self =
  (Raised (DuplicateRegionError "<STORE_OUTPUT>"), self).
Proof.
  intros [d Hd]. unfold store_output, mbind, Method_bind, create_subgraph_body.
  by rewrite Hd.
Qed.

(** What [store_output] does when its region is new. *)
Lemma store_output_new_region indices val mask w self :
  subgraph_bodies self !! "<STORE_OUTPUT>" = None →
  ∃ self1,
    store_output indices val mask w self =
      (register_hook "<STORE_OUTPUT>" None StoreOutputHook;; mret "<STORE_OUTPUT>") self1 ∧
    subgraph_bodies self1 !! "<STORE_OUTPUT>" =
      Some {| sg_body := length (store self); sg_template_mask := mask;
              sg_template_out := Some val |} ∧
    ib_lines (deref (store self1) (length (store self))) = store_output_lines val mask ∧
    snapshot self1 = snapshot self ∧
    render_hooks self1 = render_hooks self ∧
    template_indices self1 = Some (default [] indices).
Proof.
  intros Hnone.
  unfold store_output. rewrite bind_eq, create_subgraph_body_new by done.
  destruct (Py.truthy_str mask) eqn:Hm.
  - eexists. split; [reflexivity|].
    unfold set_subgraph_body_exit, entered_new, fresh_subgraph. cbn.
    rewrite lookup_insert_eq. split_and!; try done.
    + rewrite !deref_insert_eq; rewrite ?length_insert; try apply length_alloc.
      rewrite deref_alloc.
      rewrite (ib_writeline_lines _ new_IndentedBuffer); [|apply nonblank_hash|done].
      rewrite ib_writeline_lines; [|apply nonblank_hash|done].
      unfold store_output_lines. by rewrite Hm.
    + by destruct indices as [[|]|].
  - eexists. split; [reflexivity|].
    unfold set_subgraph_body_exit, entered_new, fresh_subgraph. cbn.
    rewrite lookup_insert_eq. split_and!; try done.
    + rewrite !deref_insert_eq; rewrite ?length_insert; try apply length_alloc.
      rewrite deref_alloc.
      rewrite (ib_writeline_lines _ new_IndentedBuffer); [|apply nonblank_hash|done].
      unfold store_output_lines. by rewrite Hm.
    + by destruct indices as [[|]|].
Qed.

Lemma register_hook_new token msg hook self :
  render_hooks self !! token = None →
  register_hook token msg hook self =
  (Returned tt, set_render_hooks (insert token hook) self).
Proof. intros H. unfold register_hook. by rewrite H. Qed.

Lemma register_hook_registered token msg hook self :
  is_Some (render_hooks self !! token) →
  register_hook token msg hook self = (Raised (AssertionError msg), self).
Proof. intros [h H]. unfold register_hook. by rewrite H. Qed.

(** [store_output] returns exactly when neither its region nor its hook
    is there yet. *)
Lemma store_output_returns_inv indices val mask w self tok self' :
  store_output indices val mask w self = (Returned tok, self') →
  subgraph_bodies self !! "<STORE_OUTPUT>" = None ∧
  render_hooks self !! "<STORE_OUTPUT>" = None.
Proof.
  intros Hret.
  destruct (subgraph_bodies self !! "<STORE_OUTPUT>") as [d|] eqn:Hs.
  { rewrite store_output_region_exists in Hret by eauto. discriminate. }
  split; [done|].
  destruct (store_output_new_region indices val mask w self Hs)
    as (self1 & Heq & _ & _ & _ & Hh & _).
  rewrite Heq, bind_eq in Hret.
  destruct (render_hooks self !! "<STORE_OUTPUT>") as [h|] eqn:Hr; [|done].
  rewrite register_hook_registered in Hret; [discriminate|].
  rewrite Hh. eauto.
Qed.

(** [store_output] on a kernel that has neither its region nor its hook. *)
Lemma store_output_returns indices val mask w self :
  subgraph_bodies self !! "<STORE_OUTPUT>" = None →
  render_hooks self !! "<STORE_OUTPUT>" = None →
  ∃ self',
    store_output indices val mask w self = (Returned "<STORE_OUTPUT>", self') ∧
    subgraph_bodies self' !! "<STORE_OUTPUT>" =
      Some {| sg_body := length (store self); sg_template_mask := mask;
              sg_template_out := Some val |} ∧
    ib_lines (deref (store self') (length (store self))) = store_output_lines val mask ∧
    snapshot self' = snapshot self ∧
    template_indices self' = Some (default [] indices).
Proof.
  intros Hs Hr.
  destruct (store_output_new_region indices val mask w self Hs)
    as (self1 & Heq & Hreg & Hlines & Hsnap & Hh & Hidx).
  rewrite Heq, bind_eq, register_hook_new by by rewrite Hh.
  eexists. split; [reflexivity|]. by split_and!.
Qed.

(** C9 (as amended). When its region and hook are new, [store_output]
    returns its token; the mask expression, the value expression and the
    written lines are then the saved state of the [<STORE_OUTPUT>] region,
    and the kernel's body, mask and output expression are the ones from
    before the call.  The index list is no field of the saved state
    ([CuteDSLSubgraphInfo] has three fields): it stays on the kernel as
    [template_indices]. *)
Theorem store_output_records (indices : option (list string)) (val : string)
    (mask : option string) (w : nat) (self : CuteDSLTemplateKernel) :
  subgraph_bodies self !! "<STORE_OUTPUT>" = None →
  render_hooks self !! "<STORE_OUTPUT>" = None →
  ∃ self',
    store_output indices val mask w self = (Returned "<STORE_OUTPUT>", self') ∧
    subgraph_bodies self' !! "<STORE_OUTPUT>" =
      Some {| sg_body := length (store self); sg_template_mask := mask;
              sg_template_out := Some val |} ∧
    ib_lines (deref (store self') (length (store self))) = store_output_lines val mask ∧
    body self' = body self ∧
    template_mask self' = template_mask self ∧
    template_out self' = template_out self ∧
    template_indices self' = Some (default [] indices).
Proof.
  intros Hs Hr.
  destruct (store_output_returns indices val mask w self Hs Hr)
    as (self' & Heq & Hreg & Hlines & Hsnap & Hidx).
  exists self'. unfold snapshot in Hsnap. injection Hsnap as Hb Hm Ho.
  by split_and!.
Qed.

Lemma store_output_records_witness :
  ∃ self',
    store_output (Some ["i"; "j"]) "v" (Some "m") 4 k_abc_defined =
      (Returned "<STORE_OUTPUT>", self') ∧
    subgraph_bodies self' !! "<STORE_OUTPUT>" =
      Some {| sg_body := length (store k_abc_defined); sg_template_mask := Some "m";
              sg_template_out := Some "v" |} ∧
    ib_lines (deref (store self') (length (store k_abc_defined))) =
      store_output_lines "v" (Some "m") ∧
    body self' = body k_abc_defined ∧
    template_mask self' = template_mask k_abc_defined ∧
    template_out self' = template_out k_abc_defined ∧
    template_indices self' = Some (default [] (Some ["i"; "j"])).
Proof.
  apply (store_output_records (Some ["i"; "j"]) "v" (Some "m") 4 k_abc_defined);
    vm_compute; reflexivity.
Defined.

(** C9 (as stated) fails: after [store_output([i, j], "v", "m")] the index
    list is still set on the kernel, although the region has been exited. *)
Lemma store_output_indices_not_restored :
  template_indices k_abc = None ∧
  template_indices k_abc_stored = Some ["i"; "j"] ∧
  template_indices k_abc_stored ≠ template_indices k_abc.
Proof. vm_compute. by split_and!. Qed.

(** * [def_kernel] *)

Lemma rebound_refl self : rebound self self.
Proof. unfold rebound. by destruct self. Qed.

Lemma rebound_trans s1 s2 s3 : rebound s1 s2 → rebound s2 s3 → rebound s1 s3.
Proof.
  unfold rebound. intros H12 H23. rewrite H23 at 1. rewrite H12 at 1. by destruct s1.
Qed.

Lemma rebound_set s f a : rebound s (set_args a (set_named_input_nodes f s)).
Proof. unfold rebound. by destruct s. Qed.

Lemma bind_inputs_frame pairs :
  ∀ self r self', bind_inputs pairs self = (r, self') →
    rebound self self' ∧ attribute_fault r ∧
    (is_Some (args self) → is_Some (args self')).
Proof.
  induction pairs as [|[name node] rest IH]; intros self r self' H.
  - injection H as <- <-. split_and!; [apply rebound_refl|done..].
  - cbn [bind_inputs] in H.
    unfold mbind, Method_bind, modify, get_args, call_get_name in H. cbn in H.
    destruct (args self) as [a|] eqn:Ha; cbn in H.
    + destruct (buf_get_name node) as [o|]; cbn in H.
      * apply IH in H as (Hre & Hf & Hs). split_and!; [|done|intros _; apply Hs; by eexists].
        eapply rebound_trans; [|exact Hre].
        match goal with |- rebound _ ?s => replace s with
          (set_args (args s) (set_named_input_nodes (λ _, named_input_nodes s) self)) end;
          [apply rebound_set|]. by destruct self.
      * injection H as <- <-. split_and!; [|by eexists|done].
        match goal with |- rebound _ ?s => replace s with
          (set_args (args s) (set_named_input_nodes (λ _, named_input_nodes s) self)) end;
          [apply rebound_set|]. by destruct self.
    + injection H as <- <-. split_and!; [|by eexists|by intros []].
      match goal with |- rebound _ ?s => replace s with
        (set_args (args s) (set_named_input_nodes (λ _, named_input_nodes s) self)) end;
        [apply rebound_set|]. by destruct self.
Qed.

Ltac run_in H :=
  unfold mbind, Method_bind, mret, Method_ret, modify, raise, get_args,
    call_get_name in H; cbn beta iota in H.

Ltac run :=
  unfold mbind, Method_bind, mret, Method_ret, modify, raise, get_args,
    call_get_name; cbn beta iota.

Lemma bind_inputs_returns pairs :
  ∀ self a, args self = Some a → Forall (λ p, has_get_name p.2) pairs →
    bind_inputs pairs self =
    (Returned tt,
     set_args (Some {| input_buffers := bind_table (input_buffers a) pairs;
                       output_buffers := output_buffers a |})
       (set_named_input_nodes (λ d, bind_names d pairs) self)).
Proof.
  induction pairs as [|[name node] rest IH]; intros self a Ha Hall.
  - cbn. f_equal. destruct self, a. cbn in *. by subst.
  - apply Forall_cons in Hall as [[o Ho] Hall]. cbn in Ho.
    cbn [bind_inputs]. run. cbn [args set_named_input_nodes]. rewrite Ha, Ho. run.
    erewrite IH; [|reflexivity|done].
    f_equal. unfold bind_table, bind_names, outer. cbn. rewrite Ho. cbn.
    by destruct self.
Qed.

Lemma bind_inputs_returned_inv pairs :
  ∀ self u self', bind_inputs pairs self = (Returned u, self') →
    Forall (λ p, has_get_name p.2) pairs ∧ (pairs ≠ [] → is_Some (args self)).
Proof.
  induction pairs as [|[name node] rest IH]; intros self u self' H.
  - by split.
  - cbn [bind_inputs] in H. run_in H. cbn [args set_named_input_nodes] in H.
    destruct (args self) as [a|] eqn:Ha; [|discriminate].
    destruct (buf_get_name node) as [o|] eqn:Ho; [|discriminate].
    apply IH in H as [Hall _]. split; [|by eauto].
    apply Forall_cons. split; [|done]. by exists o.
Qed.

Lemma bind_output_frame self r self' :
  bind_output self = (r, self') →
  rebound self self' ∧ attribute_fault r ∧
  (is_Some (args self) → is_Some (args self')).
Proof.
  unfold bind_output. intros H.
  destruct (output_node self) as [out|].
  - run_in H. destruct (args self) as [a|] eqn:Ha.
    + destruct (buf_get_name out) as [o|]; injection H as <- <-.
      * split_and!; [|done|by eexists].
        match goal with |- rebound _ ?s => replace s with
          (set_args (args s) (set_named_input_nodes (λ _, named_input_nodes s) self)) end;
          [apply rebound_set|]. by destruct self.
      * split_and!; [apply rebound_refl|by eexists|done].
    + injection H as <- <-. split_and!; [apply rebound_refl|by eexists|done].
  - injection H as <- <-. split_and!; [apply rebound_refl|done..].
Qed.

Lemma bind_output_returns self a :
  args self = Some a →
  (∀ out, output_node self = Some out → has_get_name out) →
  bind_output self =
  (Returned tt,
   set_args (Some {| input_buffers := input_buffers a;
                     output_buffers :=
                       match output_node self with
                       | Some out => Py.dict_set (outer out) "output" (output_buffers a)
                       | None => output_buffers a
                       end |}) self).
Proof.
  intros Ha Hout. unfold bind_output.
  destruct (output_node self) as [out|] eqn:Eo.
  - destruct (Hout out eq_refl) as [o Ho]. run. rewrite Ha, Ho. run.
    unfold outer. by rewrite Ho.
  - f_equal. destruct self, a. cbn in *. by subst.
Qed.

Lemma bind_output_returned_inv self u self' :
  bind_output self = (Returned u, self') →
  ∀ out, output_node self = Some out → has_get_name out ∧ is_Some (args self).
Proof.
  unfold bind_output. intros H out Eo. rewrite Eo in H. run_in H.
  destruct (args self) as [a|]; [|discriminate].
  destruct (buf_get_name out) as [o|] eqn:Ho; [|discriminate].
  split; [by exists o|by eexists].
Qed.

Lemma bind_phase_inputs argnames self :
  (if 0 <? length argnames
   then fun self => bind_inputs (zip argnames (input_nodes self)) self
   else (mret tt : Method unit)) self =
  bind_inputs (zip argnames (input_nodes self)) self.
Proof. by destruct argnames. Qed.

Lemma bind_phase_frame argnames self r self' :
  bind_phase argnames self = (r, self') →
  rebound self self' ∧ attribute_fault r ∧
  (is_Some (args self) → is_Some (args self')).
Proof.
  unfold bind_phase. rewrite bind_eq, bind_phase_inputs. intros H.
  destruct (bind_inputs (zip argnames (input_nodes self)) self) as [[[]|e] s1] eqn:E1.
  - apply bind_inputs_frame in E1 as (R1 & _ & S1).
    apply bind_output_frame in H as (R2 & F2 & S2).
    split_and!; [by eapply rebound_trans|done|auto].
  - injection H as <- <-. by apply bind_inputs_frame in E1.
Qed.

Lemma rebound_input_nodes s s' : rebound s s' → input_nodes s' = input_nodes s.
Proof. intros ->. reflexivity. Qed.

Lemma rebound_output_node s s' : rebound s s' → output_node s' = output_node s.
Proof. intros ->. reflexivity. Qed.

Lemma bind_phase_returns argnames self a :
  args self = Some a →
  Forall (λ p, has_get_name p.2) (zip argnames (input_nodes self)) →
  (∀ out, output_node self = Some out → has_get_name out) →
  bind_phase argnames self =
  (Returned tt,
   set_args (Some (bound_args argnames self a))
     (set_named_input_nodes (λ d, bind_names d (zip argnames (input_nodes self))) self)).
Proof.
  intros Ha Hall Hout. unfold bind_phase. rewrite bind_eq, bind_phase_inputs.
  rewrite (bind_inputs_returns _ self a) by done.
  erewrite bind_output_returns; [|reflexivity|done].
  reflexivity.
Qed.

Lemma bind_phase_returned_inv argnames self u self' :
  bind_phase argnames self = (Returned u, self') → bindable argnames self.
Proof.
  unfold bind_phase. rewrite bind_eq, bind_phase_inputs. intros H.
  destruct (bind_inputs (zip argnames (input_nodes self)) self) as [[[]|e] s1] eqn:E1;
    [|discriminate].
  pose proof (bind_inputs_frame _ _ _ _ E1) as (R1 & _ & S1).
  pose proof (bind_inputs_returned_inv _ _ _ _ E1) as [Hall Hargs].
  pose proof (bind_output_returned_inv _ _ _ H) as Hout.
  rewrite (rebound_output_node _ _ R1) in Hout.
  split_and!; [done|intros out Eo; by apply Hout|].
  intros [Hz|Ho]; [by apply Hargs|].
  destruct (zip argnames (input_nodes self)) as [|p rest]; [|by apply Hargs].
  injection E1 as <-.
  destruct (output_node self) as [out|] eqn:Eo; [|done].
  by destruct (Hout out eq_refl).
Qed.

Lemma bindable_returns argnames self :
  bindable argnames self → ∃ s, bind_phase argnames self = (Returned tt, s).
Proof.
  intros (Hall & Hout & Hargs).
  destruct (args self) as [a|] eqn:Ha.
  - eexists. by apply (bind_phase_returns argnames self a).
  - exists self. unfold bind_phase. rewrite bind_eq, bind_phase_inputs.
    destruct (zip argnames (input_nodes self)) as [|p rest].
    + cbn. unfold bind_output.
      destruct (output_node self) as [out|]; [|done].
      destruct Hargs as [? [=]]. by right.
    + destruct Hargs as [? [=]]. by left.
Qed.

Lemma def_kernel_eq argnames self :
  def_kernel argnames self =
  match bind_phase argnames self with
  | (Returned _, s) => def_kernel_tail argnames s
  | (Raised e, s) => (Raised e, s)
  end.
Proof.
  unfold def_kernel, bind_phase. rewrite !bind_eq, bind_phase_inputs.
  destruct (bind_inputs (zip argnames (input_nodes self)) self) as [[[]|e] s1]; [|done].
  rewrite bind_eq.
  by destruct (bind_output s1) as [[[]|e] s2].
Qed.

Lemma nonblank_def (line : string) : Py.strip ("def " +:+ line) ≠ "".
Proof. by apply strip_nonblank. Qed.

Lemma def_kernel_region argnames s :
  subgraph_bodies s !! "<DEF_KERNEL>" = None →
  ∃ s1,
    create_subgraph_body "<DEF_KERNEL>" (def_kernel_scope argnames) s = (Returned tt, s1) ∧
    subgraph_bodies s1 !! "<DEF_KERNEL>" =
      Some {| sg_body := length (store s); sg_template_mask := None;
              sg_template_out := None |} ∧
    ib_lines (deref (store s1) (length (store s))) =
      def_kernel_lines (kernel_name s) argnames ∧
    snapshot s1 = snapshot s ∧
    render_hooks s1 = render_hooks s ∧
    args s1 = args s ∧
    named_input_nodes s1 = named_input_nodes s ∧
    input_nodes s1 = input_nodes s ∧
    output_node s1 = output_node s ∧
    template_indices s1 = template_indices s.
Proof.
  intros Hnone. rewrite create_subgraph_body_new by done.
  destruct argnames as [|n0 rest].
  - eexists. split; [reflexivity|].
    unfold set_subgraph_body_exit, entered_new, fresh_subgraph. cbn.
    rewrite lookup_insert_eq. split_and!; try done.
    rewrite !deref_insert_eq; rewrite ?length_insert; try apply length_alloc.
    rewrite deref_alloc.
    repeat (rewrite ib_writeline_lines;
            [|first [apply nonblank_hash|apply nonblank_def]|done]).
    done.
  - eexists. split; [reflexivity|].
    unfold set_subgraph_body_exit, entered_new, fresh_subgraph. cbn.
    rewrite lookup_insert_eq. split_and!; try done.
    rewrite !deref_insert_eq; rewrite ?length_insert; try apply length_alloc.
    rewrite deref_alloc.
    repeat (rewrite ib_writeline_lines;
            [|first [apply nonblank_hash|apply nonblank_def]|done]).
    done.
Qed.

(** [def_kernel] once its binding steps have returned [sB]. *)
Lemma def_kernel_steps argnames self sB :
  bind_phase argnames self = (Returned tt, sB) →
  subgraph_bodies self !! "<DEF_KERNEL>" = None →
  render_hooks self !! "<DEF_KERNEL>" = None →
  ∃ self',
    def_kernel argnames self = (Returned "<DEF_KERNEL>", self') ∧
    args self' = args sB ∧
    named_input_nodes self' = named_input_nodes sB ∧
    input_nodes self' = input_nodes self ∧
    output_node self' = output_node self ∧
    subgraph_bodies self' !! "<DEF_KERNEL>" =
      Some {| sg_body := length (store self); sg_template_mask := None;
              sg_template_out := None |} ∧
    ib_lines (deref (store self') (length (store self))) =
      def_kernel_lines (kernel_name self) argnames ∧
    snapshot self' = snapshot self ∧
    render_hooks self' !! "<DEF_KERNEL>" = Some DefKernelHook ∧
    template_indices self' = template_indices self.
Proof.
  intros HB Hs Hr. rewrite def_kernel_eq, HB.
  apply bind_phase_frame in HB as (R & _ & _).
  assert (subgraph_bodies sB = subgraph_bodies self ∧ render_hooks sB = render_hooks self ∧
          store sB = store self ∧ kernel_name sB = kernel_name self ∧
          snapshot sB = snapshot self ∧ input_nodes sB = input_nodes self ∧
          output_node sB = output_node self ∧
          template_indices sB = template_indices self)
    as (E1 & E2 & E3 & E4 & E5 & E6 & E7 & E8) by (rewrite R; by split_and!).
  destruct (def_kernel_region argnames sB)
    as (s1 & Hc & Hreg & Hlines & Hsnap & Hh & Ha & Hn & Hi & Ho & Hx);
    [by rewrite E1|].
  unfold def_kernel_tail. rewrite bind_eq, Hc, bind_eq.
  rewrite register_hook_new by (by rewrite Hh, E2).
  eexists. split; [reflexivity|]. cbn.
  rewrite E3, E4 in *. split_and!; try congruence.
  - etrans; [|exact E5]. etrans; [|exact Hsnap]. done.
  - apply lookup_insert_eq.
Qed.

(** * Dictionaries *)

Lemma dict_get_set_eq {V : Type} (k : string) (v : V) d :
  Py.dict_get k (Py.dict_set k v d) = Some v.
Proof.
  induction d as [|[k' v'] d IH]; cbn.
  - by rewrite decide_True.
  - destruct (decide (k' = k)) as [->|Hne]; cbn.
    + by rewrite decide_True.
    + by rewrite decide_False.
Qed.

Lemma dict_get_set_ne {V : Type} (k k' : string) (v : V) d :
  k ≠ k' → Py.dict_get k (Py.dict_set k' v d) = Py.dict_get k d.
Proof.
  intros Hne. induction d as [|[k0 v0] d IH]; cbn.
  - by rewrite decide_False.
  - destruct (decide (k0 = k')) as [->|Hne0]; cbn.
    + by rewrite !decide_False.
    + destruct (decide (k0 = k)); [done|]. apply IH.
Qed.


Lemma bind_table_other o pairs :
  ∀ d, o ∉ outer <$> pairs.*2 →
       Py.dict_get o (bind_table d pairs) = Py.dict_get o d.
Proof.
  induction pairs as [|[name node] rest IH]; intros d Hn; [done|].
  cbn in Hn. apply not_elem_of_cons in Hn as [Hne Hn].
  unfold bind_table. cbn. fold (bind_table (Py.dict_set (outer node) name d) rest).
  rewrite IH by done. by apply dict_get_set_ne.
Qed.



Lemma zip_snd_take {A B : Type} (l : list A) (k : list B) :
  (zip l k).*2 = take (length l) k.
Proof. revert k. induction l as [|x l IH]; intros [|y k]; cbn; by rewrite ?IH. Qed.

Lemma zip_cut {A B : Type} (l : list A) (k : list B) :
  zip (take (length k) l) (take (length l) k) = zip l k.
Proof. revert k. induction l as [|x l IH]; intros [|y k]; cbn; by rewrite ?IH. Qed.

(** [def_kernel] on a kernel that has an Argument Table, nodes with names
    where it asks for them, and neither the region nor the hook yet. *)
Lemma def_kernel_returns argnames self a :
  args self = Some a →
  Forall (λ p, has_get_name p.2) (zip argnames (input_nodes self)) →
  (∀ out, output_node self = Some out → has_get_name out) →
  subgraph_bodies self !! "<DEF_KERNEL>" = None →
  render_hooks self !! "<DEF_KERNEL>" = None →
  ∃ self',
    def_kernel argnames self = (Returned "<DEF_KERNEL>", self') ∧
    args self' = Some (bound_args argnames self a) ∧
    named_input_nodes self' =
      bind_names (named_input_nodes self) (zip argnames (input_nodes self)) ∧
    subgraph_bodies self' !! "<DEF_KERNEL>" =
      Some {| sg_body := length (store self); sg_template_mask := None;
              sg_template_out := None |} ∧
    ib_lines (deref (store self') (length (store self))) =
      def_kernel_lines (kernel_name self) argnames.
Proof.
  intros Ha Hall Hout Hs Hr.
  pose proof (bind_phase_returns argnames self a Ha Hall Hout) as HB.
  destruct (def_kernel_steps argnames self _ HB Hs Hr)
    as (self' & Hd & Hargs & Hn & _ & _ & Hreg & Hlines & _).
  exists self'. by split_and!.
Qed.




(** C10. [def_kernel] binds along [zip(argnames, input_nodes)]: with [k]
    names and [n] input nodes only the first [min k n] of either take
    part.  Input nodes past the names are not asked for their name and
    keep whatever binding they had (none, from an empty table); names past
    the input nodes bind nothing, so a call with further names leaves the
    same Argument Table; without names no input is bound; in every case
    the call returns and the output node, when there is one, is bound to
    ["output"]. *)
Theorem def_kernel_zip_truncates (argnames : list string)
    (self : CuteDSLTemplateKernel) (a : KernelArgs) :
  args self = Some a →
  Forall (λ p, has_get_name p.2) (zip argnames (input_nodes self)) →
  (∀ out, output_node self = Some out → has_get_name out) →
  subgraph_bodies self !! "<DEF_KERNEL>" = None →
  render_hooks self !! "<DEF_KERNEL>" = None →
  ∃ self' a',
    def_kernel argnames self = (Returned "<DEF_KERNEL>", self') ∧
    args self' = Some a' ∧
    let k := length argnames in
    let n := length (input_nodes self) in
    input_buffers a' =
      bind_table (input_buffers a) (zip (take n argnames) (take k (input_nodes self))) ∧
    named_input_nodes self' =
      bind_names (named_input_nodes self) (zip (take n argnames) (take k (input_nodes self))) ∧
    (∀ o, o ∉ outer <$> take k (input_nodes self) →
          Py.dict_get o (input_buffers a') = Py.dict_get o (input_buffers a)) ∧
    (∀ extra, n ≤ k →
       ∃ self'', def_kernel (argnames ++ extra) self = (Returned "<DEF_KERNEL>", self'') ∧
                 args self'' = args self' ∧
                 named_input_nodes self'' = named_input_nodes self') ∧
    (argnames = [] →
     input_buffers a' = input_buffers a ∧ named_input_nodes self' = named_input_nodes self) ∧
    (∀ out, output_node self = Some out →
            Py.dict_get (outer out) (output_buffers a') = Some "output").
Proof.
  intros Ha Hall Hout Hs Hr.
  destruct (def_kernel_returns argnames self a Ha Hall Hout Hs Hr)
    as (self' & Hd & Hargs & Hn & _ & _).
  eexists self', _. split; [done|]. split; [done|].
  intros k n. unfold k, n. clear k n. split_and!.
  - cbn. by rewrite zip_cut.
  - by rewrite zip_cut.
  - intros o Ho. cbn. apply bind_table_other. by rewrite zip_snd_take.
  - intros extra Hle.
    assert (zip (argnames ++ extra) (input_nodes self) = zip argnames (input_nodes self))
      as Hz.
    { rewrite zip_with_app_l, take_ge, drop_ge by done.
      by rewrite zip_with_nil_r, app_nil_r. }
    destruct (def_kernel_returns (argnames ++ extra) self a)
      as (self'' & Hd' & Hargs' & Hn' & _ & _); [done|by rewrite Hz|done..|].
    exists self''. split_and!; [done| |].
    + rewrite Hargs, Hargs'. unfold bound_args. by rewrite Hz.
    + by rewrite Hn, Hn', Hz.
  - intros ->. by rewrite Hn.
  - intros out Ho. cbn. rewrite Ho. apply dict_get_set_eq.
Qed.

Lemma def_kernel_zip_truncates_witness :
  ∃ self' a',
    def_kernel ["x"] k_three = (Returned "<DEF_KERNEL>", self') ∧
    args self' = Some a' ∧
    let k := length ["x"] in
    let n := length (input_nodes k_three) in
    input_buffers a' =
      bind_table (input_buffers new_KernelArgs)
        (zip (take n ["x"]) (take k (input_nodes k_three))) ∧
    named_input_nodes self' =
      bind_names (named_input_nodes k_three)
        (zip (take n ["x"]) (take k (input_nodes k_three))) ∧
    (∀ o, o ∉ outer <$> take k (input_nodes k_three) →
          Py.dict_get o (input_buffers a') = Py.dict_get o (input_buffers new_KernelArgs)) ∧
    (∀ extra, n ≤ k →
       ∃ self'', def_kernel (["x"] ++ extra) k_three = (Returned "<DEF_KERNEL>", self'') ∧
                 args self'' = args self' ∧
                 named_input_nodes self'' = named_input_nodes self') ∧
    (["x"] = [] →
     input_buffers a' = input_buffers new_KernelArgs ∧
     named_input_nodes self' = named_input_nodes k_three) ∧
    (∀ out, output_node k_three = Some out →
            Py.dict_get (outer out) (output_buffers a') = Some "output").
Proof.
  apply (def_kernel_zip_truncates ["x"] k_three new_KernelArgs).
  - reflexivity.
  - repeat constructor; by eexists.
  - intros out [= <-]. by eexists.
  - vm_compute. reflexivity.
  - vm_compute. reflexivity.
Defined.

(** * Calling a template operation twice *)

Lemma region_fault_is_no_hook_fault body_name :
  is_DuplicateHookError (DuplicateRegionError body_name) = false ∧
  is_DuplicateRegionError (DuplicateRegionError body_name) = true.
Proof. split; [|done]. cbn. by rewrite bool_decide_eq_false. Qed.

Lemma def_kernel_region_exists argnames self :
  is_Some (subgraph_bodies self !! "<DEF_KERNEL>") →
  ∃ e self',
    def_kernel argnames self = (Raised e, self') ∧
    is_DuplicateHookError e = false ∧
    (bindable argnames self → e = DuplicateRegionError "<DEF_KERNEL>").
Proof.
  intros Hreg. rewrite def_kernel_eq.
  destruct (bind_phase argnames self) as [[[]|e] sB] eqn:HB.
  - apply bind_phase_frame in HB as (R & _ & _).
    unfold def_kernel_tail. rewrite bind_eq, create_subgraph_body_exists.
    + eexists _, _. split_and!; [done| |done].
      apply region_fault_is_no_hook_fault.
    + rewrite R. cbn. done.
  - eexists _, _. split_and!; [done| |].
    + apply bind_phase_frame in HB as (_ & [attr ->] & _). done.
    + intros [s Hs]%bindable_returns. congruence.
Qed.

Lemma def_kernel_returned_inv argnames self tok self1 :
  def_kernel argnames self = (Returned tok, self1) →
  bindable argnames self ∧
  is_Some (subgraph_bodies self1 !! "<DEF_KERNEL>") ∧
  input_nodes self1 = input_nodes self ∧
  output_node self1 = output_node self ∧
  (is_Some (args self) → is_Some (args self1)).
Proof.
  intros H. pose proof H as H0. rewrite def_kernel_eq in H0.
  destruct (bind_phase argnames self) as [[[]|e] sB] eqn:HB; [|discriminate].
  pose proof (bind_phase_returned_inv _ _ _ _ HB) as Hbind.
  pose proof (bind_phase_frame _ _ _ _ HB) as (R & _ & Hsome).
  assert (subgraph_bodies self !! "<DEF_KERNEL>" = None) as Hs.
  { destruct (subgraph_bodies self !! "<DEF_KERNEL>") as [d|] eqn:E; [|done].
    unfold def_kernel_tail in H0. rewrite bind_eq, create_subgraph_body_exists in H0;
      [discriminate|]. rewrite R. cbn. rewrite E. eauto. }
  assert (render_hooks self !! "<DEF_KERNEL>" = None) as Hr.
  { destruct (render_hooks self !! "<DEF_KERNEL>") as [h|] eqn:E; [|done].
    destruct (def_kernel_region argnames sB) as (s1 & Hc & _ & _ & _ & Hh & _).
    { rewrite R. cbn. done. }
    unfold def_kernel_tail in H0. rewrite bind_eq, Hc, bind_eq in H0.
    rewrite register_hook_registered in H0; [discriminate|].
    rewrite Hh, R. cbn. rewrite E. eauto. }
  destruct (def_kernel_steps argnames self sB HB Hs Hr)
    as (self' & Hd & Hargs & _ & Hi & Ho & Hreg & _).
  rewrite H in Hd. injection Hd as _ <-.
  split_and!; [done|by eexists|done|done|].
  rewrite Hargs. done.
Qed.

(** C3 (as amended). A second call of [def_kernel] on the same kernel
    fails, and so does a second call of [store_output]; the fault is the
    duplicate-region fault of [create_subgraph_body], raised because the
    dedicated region exists since the first call, before the hook guard is
    reached ([def_kernel] called with other names may instead stop earlier
    on a missing attribute; in no case is its fault the duplicate-hook
    fault).  Registering a token a second time in the hook registry fails
    with the duplicate-hook fault. *)
Theorem second_call_fails_on_region (self : CuteDSLTemplateKernel) :
  (∀ argnames tok self1,
     def_kernel argnames self = (Returned tok, self1) →
     (∀ argnames2, ∃ e self2,
        def_kernel argnames2 self1 = (Raised e, self2) ∧
        is_DuplicateHookError e = false) ∧
     (∃ self2, def_kernel argnames self1 =
               (Raised (DuplicateRegionError "<DEF_KERNEL>"), self2))) ∧
  (∀ indices val mask w tok self1,
     store_output indices val mask w self = (Returned tok, self1) →
     ∀ indices2 val2 mask2 w2,
       store_output indices2 val2 mask2 w2 self1 =
       (Raised (DuplicateRegionError "<STORE_OUTPUT>"), self1) ∧
       is_DuplicateHookError (DuplicateRegionError "<STORE_OUTPUT>") = false) ∧
  (∀ token msg hook1 hook2 self1,
     register_hook token msg hook1 self = (Returned tt, self1) →
     register_hook token msg hook2 self1 = (Raised (AssertionError msg), self1) ∧
     (msg = None ∨ msg = Some def_kernel_hook_msg →
      is_DuplicateHookError (AssertionError msg) = true)).
Proof.
  split_and!.
  - intros argnames tok self1 H.
    apply def_kernel_returned_inv in H as (Hbind & Hreg & Hi & Ho & Hargs).
    split.
    + intros argnames2.
      destruct (def_kernel_region_exists argnames2 self1 Hreg) as (e & s & ? & ? & _).
      by exists e, s.
    + destruct (def_kernel_region_exists argnames self1 Hreg) as (e & s & He & _ & Hdup).
      exists s. rewrite He, Hdup; [done|].
      destruct Hbind as (Hall & Hout & Hneed).
      unfold bindable. rewrite Hi, Ho. split_and!; [done..|].
      intros Hne. apply Hargs, Hneed, Hne.
  - intros indices val mask w tok self1 H indices2 val2 mask2 w2.
    split; [|apply region_fault_is_no_hook_fault].
    apply store_output_region_exists.
    pose proof (store_output_returns_inv _ _ _ _ _ _ _ H) as [Hs Hr].
    destruct (store_output_returns indices val mask w self Hs Hr) as (s & Heq & Hreg & _).
    rewrite H in Heq. injection Heq as _ <-. by eexists.
  - intros token msg hook1 hook2 self1 H. split.
    + apply register_hook_registered.
      unfold register_hook in H.
      destruct (render_hooks self !! token); [discriminate|].
      injection H as <-. cbn. rewrite lookup_insert_eq. by eexists.
    + by intros [->| ->].
Qed.

Lemma second_call_fails_on_region_witness :
  ((∀ argnames2, ∃ e self2,
      def_kernel argnames2 k_abc_defined = (Raised e, self2) ∧
      is_DuplicateHookError e = false) ∧
   (∃ self2, def_kernel ["x"; "y"] k_abc_defined =
             (Raised (DuplicateRegionError "<DEF_KERNEL>"), self2))) ∧
  (∀ indices2 val2 mask2 w2,
     store_output indices2 val2 mask2 w2 k_abc_stored =
     (Raised (DuplicateRegionError "<STORE_OUTPUT>"), k_abc_stored) ∧
     is_DuplicateHookError (DuplicateRegionError "<STORE_OUTPUT>") = false) ∧
  (∀ hook2,
     register_hook "<DEF_KERNEL>" (Some def_kernel_hook_msg) hook2 k_abc_defined =
     (Raised (AssertionError (Some def_kernel_hook_msg)), k_abc_defined) ∧
     (Some def_kernel_hook_msg = None ∨ Some def_kernel_hook_msg = Some def_kernel_hook_msg →
      is_DuplicateHookError (AssertionError (Some def_kernel_hook_msg)) = true)).
Proof.
  pose proof (second_call_fails_on_region k_abc) as (Hdef & Hstore & _).
  pose proof (second_call_fails_on_region
                (set_render_hooks (delete "<DEF_KERNEL>") k_abc_defined))
    as (_ & _ & Hreg).
  split; [|split].
  - apply (Hdef ["x"; "y"] "<DEF_KERNEL>"). vm_compute. reflexivity.
  - apply (Hstore (Some ["i"; "j"]) "v" (Some "m") 4 "<STORE_OUTPUT>").
    vm_compute. reflexivity.
  - intros hook2. apply (Hreg "<DEF_KERNEL>" _ DefKernelHook).
    vm_compute. reflexivity.
Defined.

(** C3 (as stated) fails: the second [def_kernel] on the kernel with inputs
    [a], [b] and output [c] raises the assertion of [create_subgraph_body],
    not the one guarding the hook registry; likewise the second
    [store_output]. *)
Lemma second_call_is_no_duplicate_hook_error :
  (def_kernel ["x"; "y"] k_abc_defined).1 =
    Raised (AssertionError (Some "Subgraph body '<DEF_KERNEL>' already exists")) ∧
  (store_output (Some ["i"; "j"]) "v" (Some "m") 4 k_abc_stored).1 =
    Raised (AssertionError (Some "Subgraph body '<STORE_OUTPUT>' already exists")) ∧
  ¬ (∃ e, (def_kernel ["x"; "y"] k_abc_defined).1 = Raised e ∧
          is_DuplicateHookError e = true) ∧
  ¬ (∃ e, (store_output (Some ["i"; "j"]) "v" (Some "m") 4 k_abc_stored).1 = Raised e ∧
          is_DuplicateHookError e = true).
Proof.
  split_and!.
  - vm_compute. reflexivity.
  - vm_compute. reflexivity.
  - intros (e & He & Hdup). vm_compute in He. injection He as <-. vm_compute in Hdup.
    discriminate.
  - intros (e & He & Hdup). vm_compute in He. injection He as <-. vm_compute in Hdup.
    discriminate.
Qed.

(** * [render] *)






(** * [call_kernel] *)





(** * Statements: what they keep *)

Lemma enter_keeps body_name self :
  let self1 := set_subgraph_body_enter body_name self in
  length (store self) ≤ length (store self1) ∧
  (∀ n, is_Some (subgraph_bodies self !! n) → is_Some (subgraph_bodies self1 !! n)) ∧
  is_Some (subgraph_bodies self1 !! body_name) ∧
  render_hooks self1 = render_hooks self ∧ args self1 = args self ∧
  named_input_nodes self1 = named_input_nodes self ∧
  kernel_name self1 = kernel_name self ∧ input_nodes self1 = input_nodes self ∧
  output_node self1 = output_node self ∧
  template_indices self1 = template_indices self.
Proof.
  unfold set_subgraph_body_enter.
  destruct (subgraph_bodies self !! body_name) as [d|] eqn:E.
  - rewrite E. cbn. rewrite E. by split_and!.
  - unfold fresh_subgraph. cbn. rewrite lookup_insert_eq. cbn.
    rewrite lookup_insert_eq. split_and!; try done.
    + rewrite length_app. lia.
    + intros n Hn. destruct (decide (body_name = n)) as [->|Hne].
      * by rewrite lookup_insert_eq.
      * by rewrite lookup_insert_ne.
Qed.

(** What no statement touches, and what it only adds to. *)
Lemma exec_fields (s : stmt) (self : CuteDSLTemplateKernel) :
  let self' := (exec s self).2 in
  body self' = body self ∧
  length (store self) ≤ length (store self') ∧
  (∀ n, is_Some (subgraph_bodies self !! n) → is_Some (subgraph_bodies self' !! n)) ∧
  render_hooks self' = render_hooks self ∧ args self' = args self ∧
  named_input_nodes self' = named_input_nodes self ∧
  kernel_name self' = kernel_name self ∧ input_nodes self' = input_nodes self ∧
  output_node self' = output_node self.
Proof.
  revert self.
  induction s as [|s1 IH1 s2 IH2|m|o|i|line|e|body_name s IH|body_name s IH];
    intros self; cbn [exec].
  - by split_and!.
  - unfold mbind, Method_bind. specialize (IH1 self).
    destruct (exec s1 self) as [[[]|e] self1]; cbn [snd] in *; [|done].
    specialize (IH2 self1).
    destruct IH1 as (? & ? & Hreg1 & ? & ? & ? & ? & ? & ?).
    destruct IH2 as (? & ? & Hreg2 & ? & ? & ? & ? & ? & ?).
    split_and!; try congruence; [lia|auto].
  - by split_and!.
  - by split_and!.
  - by split_and!.
  - cbn. split_and!; try done. by rewrite length_insert.
  - by split_and!.
  - unfold set_subgraph_body.
    pose proof (enter_keeps body_name self) as (? & Hreg1 & _ & ? & ? & ? & ? & ? & ? & _).
    specialize (IH (set_subgraph_body_enter body_name self)).
    destruct (exec s (set_subgraph_body_enter body_name self)) as [r self2].
    cbn [snd] in *. destruct IH as (? & ? & Hreg2 & ? & ? & ? & ? & ? & ?).
    unfold set_subgraph_body_exit. cbn.
    split_and!; try congruence; [lia|].
    intros n Hn. destruct (decide (body_name = n)) as [->|Hne].
    + by rewrite lookup_insert_eq.
    + rewrite lookup_insert_ne by done. auto.
  - unfold create_subgraph_body.
    destruct (subgraph_bodies self !! body_name) as [d|] eqn:E; [by split_and!|].
    unfold set_subgraph_body.
    pose proof (enter_keeps body_name (fresh_subgraph body_name self))
      as (? & Hreg1 & _ & ? & ? & ? & ? & ? & ? & _).
    specialize (IH (set_subgraph_body_enter body_name (fresh_subgraph body_name self))).
    destruct (exec s (set_subgraph_body_enter body_name (fresh_subgraph body_name self)))
      as [r self2].
    cbn [snd] in *. destruct IH as (? & Hlen & Hreg2 & ? & ? & ? & ? & ? & ?).
    unfold set_subgraph_body_exit. cbn in *. rewrite length_app in *. cbn in *.
    split_and!; try congruence; [lia|].
    intros n Hn. destruct (decide (body_name = n)) as [->|Hne].
    + by rewrite lookup_insert_eq.
    + rewrite lookup_insert_ne by done. apply Hreg2, Hreg1.
      by rewrite lookup_insert_ne.
Qed.

(** A statement that opens no scope of region [n] leaves the stored state
    of [n] as it is (also absent, if it was). *)
Lemma exec_other_regions (s : stmt) (n : string) :
  ∀ self, enters n s = false →
          subgraph_bodies (exec s self).2 !! n = subgraph_bodies self !! n.
Proof.
  induction s as [|s1 IH1 s2 IH2|m|o|i|line|e|body_name s IH|body_name s IH];
    intros self Hn; cbn [exec]; cbn [enters] in Hn; try done.
  - apply orb_false_iff in Hn as [Hn1 Hn2].
    unfold mbind, Method_bind. specialize (IH1 self Hn1).
    destruct (exec s1 self) as [[[]|e] self1]; cbn [snd] in *; [|done].
    by rewrite IH2.
  - apply orb_false_iff in Hn as [Hne%bool_decide_eq_false Hn].
    unfold set_subgraph_body.
    specialize (IH (set_subgraph_body_enter body_name self) Hn).
    destruct (exec s (set_subgraph_body_enter body_name self)) as [r self2].
    cbn [snd] in *. unfold set_subgraph_body_exit. cbn.
    rewrite lookup_insert_ne, IH by done.
    unfold set_subgraph_body_enter.
    destruct (subgraph_bodies self !! body_name) as [d|] eqn:E.
    + by rewrite E.
    + unfold fresh_subgraph. cbn. rewrite lookup_insert_eq. cbn.
      by rewrite lookup_insert_ne.
  - apply orb_false_iff in Hn as [Hne%bool_decide_eq_false Hn].
    unfold create_subgraph_body.
    destruct (subgraph_bodies self !! body_name) as [d|] eqn:E; [done|].
    unfold set_subgraph_body.
    specialize (IH (set_subgraph_body_enter body_name (fresh_subgraph body_name self)) Hn).
    destruct (exec s (set_subgraph_body_enter body_name (fresh_subgraph body_name self)))
      as [r self2].
    cbn [snd] in *. unfold set_subgraph_body_exit. cbn.
    rewrite lookup_insert_ne, IH by done.
    unfold set_subgraph_body_enter, fresh_subgraph. cbn.
    rewrite lookup_insert_eq. cbn. rewrite lookup_insert_eq. cbn.
    by rewrite lookup_insert_ne.
Qed.

(** * Regions: round trips *)

Lemma snapshot_load d self : snapshot (load d self) = d.
Proof. by destruct d. Qed.

Lemma load_snapshot self : load (snapshot self) self = self.
Proof. by destruct self. Qed.

Lemma exit_after_load f d self :
  load (snapshot self) (set_subgraph_bodies f (load d self)) = set_subgraph_bodies f self.
Proof. by destruct self. Qed.

Lemma set_subgraph_bodies_id f self :
  f (subgraph_bodies self) = subgraph_bodies self → set_subgraph_bodies f self = self.
Proof. destruct self. unfold set_subgraph_bodies. cbn [subgraph_bodies]. by intros ->. Qed.

Lemma set_subgraph_bodies_twice f g self :
  set_subgraph_bodies f (set_subgraph_bodies g self) = set_subgraph_bodies (f ∘ g) self.
Proof. by destruct self. Qed.

Lemma set_subgraph_bodies_ext f g self :
  f (subgraph_bodies self) = g (subgraph_bodies self) →
  set_subgraph_bodies f self = set_subgraph_bodies g self.
Proof. unfold set_subgraph_bodies. by intros ->. Qed.

(** X1. A scope that does nothing is a round trip on the whole kernel:
    entering and leaving a stored region leaves every field, the region
    store and the object store as they were; for a region that is not
    stored yet the only trace is the new empty region with its fresh
    buffer. *)
Theorem set_subgraph_body_pass (body_name : string) (self : CuteDSLTemplateKernel) :
  set_subgraph_body body_name (mret tt) self =
  (Returned tt,
   match subgraph_bodies self !! body_name with
   | Some _ => self
   | None => fresh_subgraph body_name self
   end).
Proof.
  unfold set_subgraph_body, set_subgraph_body_enter, set_subgraph_body_exit.
  destruct (subgraph_bodies self !! body_name) as [d|] eqn:E.
  - rewrite E. cbn [mret Method_ret]. f_equal.
    rewrite snapshot_load, exit_after_load.
    apply set_subgraph_bodies_id. by apply insert_id.
  - assert (subgraph_bodies (fresh_subgraph body_name self) !! body_name
            = Some {| sg_body := length (store self); sg_template_mask := None;
                      sg_template_out := None |}) as Hc.
    { unfold fresh_subgraph. cbn. apply lookup_insert_eq. }
    rewrite Hc. cbn [mret Method_ret]. f_equal.
    rewrite snapshot_load.
    change (snapshot self) with (snapshot (fresh_subgraph body_name self)).
    rewrite exit_after_load.
    unfold fresh_subgraph, alloc_IndentedBuffer. rewrite set_subgraph_bodies_twice.
    apply set_subgraph_bodies_ext. cbn. apply insert_insert_eq.
Qed.

(** X2. What a scope leaves in the mirrored fields is what the region
    keeps: after the exit the region's stored state is the kernel's body,
    mask and output expression as they were at the end of the scope, the
    buffers hold what they held then, and the next enter of the same
    region finds exactly that state and text.  This holds for every scope,
    also one that ends by a fault. *)
Theorem region_state_persists {A : Type} (body_name : string) (scope : Method A)
    (self : CuteDSLTemplateKernel) :
  let at_end := (scope (set_subgraph_body_enter body_name self)).2 in
  let self' := (set_subgraph_body body_name scope self).2 in
  subgraph_bodies self' !! body_name = Some (snapshot at_end) ∧
  store self' = store at_end ∧
  snapshot (set_subgraph_body_enter body_name self') = snapshot at_end ∧
  body_getvalue (set_subgraph_body_enter body_name self') = body_getvalue at_end.
Proof.
  unfold set_subgraph_body.
  destruct (scope (set_subgraph_body_enter body_name self)) as [r s2]. cbn [snd].
  assert (subgraph_bodies (set_subgraph_body_exit body_name (snapshot self) s2) !! body_name
          = Some (snapshot s2)) as Hreg.
  { unfold set_subgraph_body_exit. cbn. apply lookup_insert_eq. }
  split_and!; [done|done| |].
  - unfold set_subgraph_body_enter. rewrite Hreg, Hreg. apply snapshot_load.
  - unfold set_subgraph_body_enter. rewrite Hreg, Hreg. reflexivity.
Qed.

(** * Regions: well-formedness and isolation *)

Lemma bodies_kept_refl self self' :
  subgraph_bodies self' = subgraph_bodies self →
  length (store self') = length (store self) →
  bodies_kept self self'.
Proof. intros Hs _ n d' H. rewrite Hs in H. by rewrite H. Qed.

Lemma bodies_kept_trans a b c :
  grows a b → bodies_kept a b → bodies_kept b c → bodies_kept a c.
Proof.
  intros [Hlen Hmono] Hab Hbc n d'' Hc.
  specialize (Hbc n d'' Hc).
  destruct (subgraph_bodies b !! n) as [d'|] eqn:Eb.
  - specialize (Hab n d' Eb).
    destruct (subgraph_bodies a !! n); [congruence|lia].
  - destruct (subgraph_bodies a !! n) as [d|] eqn:Ea; [|lia].
    destruct (Hmono n) as [? ?]; [by eexists|congruence].
Qed.

Lemma grows_trans a b c : grows a b → grows b c → grows a c.
Proof. intros [? H1] [? H2]. split; [lia|auto]. Qed.

Lemma regions_wf_same self self' :
  subgraph_bodies self' = subgraph_bodies self →
  length (store self') = length (store self) →
  regions_wf self → regions_wf self'.
Proof. unfold regions_wf. intros -> ->. done. Qed.

Lemma fresh_regions body_name self :
  regions_wf self → subgraph_bodies self !! body_name = None →
  regions_wf (fresh_subgraph body_name self) ∧
  grows self (fresh_subgraph body_name self) ∧
  bodies_kept self (fresh_subgraph body_name self).
Proof.
  intros [Hb Hinj] Hnone. unfold fresh_subgraph. cbn. split_and!.
  - split; cbn.
    + intros n d. rewrite length_app. cbn.
      destruct (decide (body_name = n)) as [->|Hne].
      * rewrite lookup_insert_eq. intros [= <-]. cbn. lia.
      * rewrite lookup_insert_ne by done. intros H. specialize (Hb n d H). cbn in Hb. lia.
    + intros n dn Hn m dm Hm Heq.
      destruct (decide (body_name = n)) as [<-|Hnn];
        destruct (decide (body_name = m)) as [<-|Hnm]; try done.
      * rewrite lookup_insert_eq in Hn. rewrite lookup_insert_ne in Hm by done.
        injection Hn as <-. specialize (Hb m dm Hm). cbn in *. lia.
      * rewrite lookup_insert_eq in Hm. rewrite lookup_insert_ne in Hn by done.
        injection Hm as <-. specialize (Hb n dn Hn). cbn in *. lia.
      * rewrite lookup_insert_ne in Hn, Hm by done. by eapply Hinj.
  - split; cbn; [rewrite length_app; lia|].
    intros n Hn. destruct (decide (body_name = n)) as [->|Hne].
    + by rewrite lookup_insert_eq.
    + by rewrite lookup_insert_ne.
  - intros n d'. cbn. destruct (decide (body_name = n)) as [->|Hne].
    + rewrite lookup_insert_eq, Hnone. intros [= <-]. cbn. lia.
    + rewrite lookup_insert_ne by done. intros H. by rewrite H.
Qed.

Lemma enter_regions body_name self :
  regions_wf self →
  let self1 := set_subgraph_body_enter body_name self in
  regions_wf self1 ∧ grows self self1 ∧ bodies_kept self self1 ∧
  ∃ d1, subgraph_bodies self1 !! body_name = Some d1 ∧ sg_body d1 = body self1.
Proof.
  intros Hwf. unfold set_subgraph_body_enter.
  destruct (subgraph_bodies self !! body_name) as [d|] eqn:E.
  - rewrite E. split_and!.
    + by apply (regions_wf_same self).
    + by split.
    + by apply bodies_kept_refl.
    + exists d. by split.
  - destruct (fresh_regions body_name self Hwf E) as (Hwf' & Hg & Hk).
    assert (subgraph_bodies (fresh_subgraph body_name self) !! body_name
            = Some {| sg_body := length (store self); sg_template_mask := None;
                      sg_template_out := None |}) as Hc.
    { unfold fresh_subgraph. cbn. apply lookup_insert_eq. }
    rewrite Hc. split_and!.
    + by apply (regions_wf_same (fresh_subgraph body_name self)).
    + done.
    + done.
    + eexists. by split.
Qed.

Lemma exit_regions body_name old self2 d2 :
  regions_wf self2 →
  subgraph_bodies self2 !! body_name = Some d2 → sg_body d2 = body self2 →
  regions_wf (set_subgraph_body_exit body_name old self2) ∧
  grows self2 (set_subgraph_body_exit body_name old self2) ∧
  bodies_kept self2 (set_subgraph_body_exit body_name old self2).
Proof.
  intros [Hb Hinj] Hd2 Hbody. unfold set_subgraph_body_exit.
  assert (∀ m e, <[body_name := snapshot self2]> (subgraph_bodies self2) !! m = Some e →
                 ∃ e2, subgraph_bodies self2 !! m = Some e2 ∧ sg_body e2 = sg_body e) as Hsame.
  { intros m e. destruct (decide (body_name = m)) as [->|Hne].
    - rewrite lookup_insert_eq. intros [= <-]. exists d2. by split.
    - rewrite lookup_insert_ne by done. intros H. exists e. by split. }
  split_and!.
  - split; cbn.
    + intros n d Hn. apply Hsame in Hn as (e2 & He2 & <-). by apply (Hb n).
    + intros n dn Hn m dm Hm Heq.
      apply Hsame in Hn as (en & Hen & Hbn). apply Hsame in Hm as (em & Hem & Hbm).
      apply (Hinj n en Hen m em Hem). congruence.
  - split; cbn; [done|]. intros n Hn.
    destruct (decide (body_name = n)) as [->|Hne].
    + by rewrite lookup_insert_eq.
    + by rewrite lookup_insert_ne.
  - intros n d' Hn. cbn in Hn. apply Hsame in Hn as (e2 & He2 & Hbe). by rewrite He2.
Qed.

Lemma keeps_regions_set_subgraph_body (scope : Method unit) body_name :
  keeps_regions scope → keeps_regions (set_subgraph_body body_name scope).
Proof.
  intros Hscope self Hwf. unfold set_subgraph_body.
  destruct (enter_regions body_name self Hwf) as (Hwf1 & Hg1 & Hk1 & d1 & Hd1 & Hb1).
  specialize (Hscope (set_subgraph_body_enter body_name self) Hwf1).
  destruct (scope (set_subgraph_body_enter body_name self)) as [r self2].
  cbn [snd] in *. destruct Hscope as (Hwf2 & Hb2 & Hg2 & Hk2).
  destruct Hg2 as [Hlen2 Hmono2].
  destruct (Hmono2 body_name) as [d2 Hd2]; [by eexists|].
  pose proof (Hk2 body_name d2 Hd2) as Hbd. rewrite Hd1 in Hbd.
  destruct (exit_regions body_name (snapshot self) self2 d2 Hwf2 Hd2)
    as (Hwf3 & Hg3 & Hk3); [congruence|].
  split_and!.
  - done.
  - reflexivity.
  - eapply grows_trans; [exact Hg1|]. eapply grows_trans; [by split|exact Hg3].
  - eapply bodies_kept_trans; [exact Hg1|exact Hk1|].
    eapply bodies_kept_trans; [by split|exact Hk2|exact Hk3].
Qed.

Lemma keeps_regions_create_subgraph_body (scope : Method unit) body_name :
  keeps_regions scope → keeps_regions (create_subgraph_body body_name scope).
Proof.
  intros Hscope self Hwf. unfold create_subgraph_body.
  destruct (subgraph_bodies self !! body_name) as [d|] eqn:E.
  - split_and!; [done|done|by split|by apply bodies_kept_refl].
  - destruct (fresh_regions body_name self Hwf E) as (Hwf' & Hg & Hk).
    destruct (keeps_regions_set_subgraph_body scope body_name Hscope _ Hwf')
      as (Hwf2 & Hb2 & Hg2 & Hk2).
    split_and!; [done|done| |].
    + by eapply grows_trans.
    + by eapply bodies_kept_trans.
Qed.

Lemma keeps_regions_exec (s : stmt) : keeps_regions (exec s).
Proof.
  induction s as [|s1 IH1 s2 IH2|m|o|i|line|e|body_name s IH|body_name s IH];
    cbn [exec].
  - intros self Hwf. split_and!; [done|done|by split|by apply bodies_kept_refl].
  - intros self Hwf. unfold mbind, Method_bind.
    specialize (IH1 self Hwf).
    destruct (exec s1 self) as [[[]|e] self1]; cbn [snd] in *; [|done].
    destruct IH1 as (Hwf1 & Hb1 & Hg1 & Hk1).
    destruct (IH2 self1 Hwf1) as (Hwf2 & Hb2 & Hg2 & Hk2).
    split_and!; [done|congruence|by eapply grows_trans|by eapply bodies_kept_trans].
  - intros self Hwf. split_and!; [done|done|by split|by apply bodies_kept_refl].
  - intros self Hwf. split_and!; [done|done|by split|by apply bodies_kept_refl].
  - intros self Hwf. split_and!; [done|done|by split|by apply bodies_kept_refl].
  - intros self Hwf. cbn. split_and!.
    + apply (regions_wf_same self); [done|cbn; by rewrite length_insert|done].
    + done.
    + split; cbn; [by rewrite length_insert|done].
    + apply bodies_kept_refl; [done|cbn; by rewrite length_insert].
  - intros self Hwf. split_and!; [done|done|by split|by apply bodies_kept_refl].
  - by apply keeps_regions_set_subgraph_body.
  - by apply keeps_regions_create_subgraph_body.
Qed.

Lemma enter_store body_name self l :
  l < length (store self) →
  store (set_subgraph_body_enter body_name self) !! l = store self !! l.
Proof.
  intros Hl. unfold set_subgraph_body_enter.
  destruct (subgraph_bodies self !! body_name) as [d|] eqn:E.
  - by rewrite E.
  - unfold fresh_subgraph. cbn. rewrite lookup_insert_eq. cbn. by apply lookup_app_l.
Qed.

(** A region that holds [l] in a later state held it before. *)
Lemma holder_was_holder self self' l n d' :
  bodies_kept self self' → l < length (store self) →
  subgraph_bodies self' !! n = Some d' → sg_body d' = l →
  ∃ d, subgraph_bodies self !! n = Some d ∧ sg_body d = l.
Proof.
  intros Hk Hl Hn Hb. specialize (Hk n d' Hn).
  destruct (subgraph_bodies self !! n) as [d|]; [|lia].
  exists d. split; [done|congruence].
Qed.

Lemma keeps_buffer_set_subgraph_body l ent (scope : Method unit) body_name self :
  keeps_regions scope → keeps_buffer l ent scope →
  regions_wf self → l < length (store self) →
  (∀ n d, subgraph_bodies self !! n = Some d → sg_body d = l →
          bool_decide (body_name = n) || ent n = false) →
  store (set_subgraph_body body_name scope self).2 !! l = store self !! l.
Proof.
  intros Hreg Hscope Hwf Hl Hent. unfold set_subgraph_body.
  destruct (enter_regions body_name self Hwf) as (Hwf1 & [Hlen1 _] & Hk1 & d1 & Hd1 & Hb1).
  specialize (Hscope (set_subgraph_body_enter body_name self) Hwf1).
  destruct (scope (set_subgraph_body_enter body_name self)) as [r self2].
  cbn [snd] in *. unfold set_subgraph_body_exit. cbn.
  rewrite Hscope; [by apply enter_store|lia| |].
  - intros Heq.
    destruct (holder_was_holder self _ l body_name d1 Hk1 Hl Hd1) as (d & Hd & Hbd);
      [congruence|].
    specialize (Hent body_name d Hd Hbd).
    by rewrite bool_decide_eq_true_2 in Hent.
  - intros n d' Hn Hbn.
    destruct (holder_was_holder self _ l n d' Hk1 Hl Hn Hbn) as (d & Hd & Hbd).
    specialize (Hent n d Hd Hbd). by apply orb_false_iff in Hent as [_ ?].
Qed.

Lemma keeps_buffer_exec (s : stmt) (l : nat) : keeps_buffer l (λ n, enters n s) (exec s).
Proof.
  induction s as [|s1 IH1 s2 IH2|m|o|i|line|e|body_name s IH|body_name s IH];
    intros self Hwf Hl Hb Hent; cbn [exec]; try done.
  - unfold mbind, Method_bind.
    specialize (IH1 self Hwf Hl Hb).
    pose proof (keeps_regions_exec s1 self Hwf) as (Hwf1 & Hb1 & [Hlen1 _] & Hk1).
    destruct (exec s1 self) as [[[]|e] self1]; cbn [snd] in *.
    + rewrite IH2; [apply IH1|done|lia|congruence|].
      * intros n d Hn Hbn. specialize (Hent n d Hn Hbn). cbn in Hent.
        by apply orb_false_iff in Hent as [? _].
      * intros n d' Hn Hbn.
        destruct (holder_was_holder self _ l n d' Hk1 Hl Hn Hbn) as (d & Hd & Hbd).
        specialize (Hent n d Hd Hbd). cbn in Hent.
        by apply orb_false_iff in Hent as [_ ?].
    + apply IH1. intros n d Hn Hbn. specialize (Hent n d Hn Hbn). cbn in Hent.
      by apply orb_false_iff in Hent as [? _].
  - cbn. by apply list_lookup_insert_ne.
  - eapply keeps_buffer_set_subgraph_body; [apply keeps_regions_exec|exact IH|done..].
  - unfold create_subgraph_body.
    destruct (subgraph_bodies self !! body_name) as [d|] eqn:E; [done|].
    destruct (fresh_regions body_name self Hwf E) as (Hwf' & [Hlen' _] & Hk').
    erewrite keeps_buffer_set_subgraph_body;
      [|apply keeps_regions_exec|exact IH|done|lia|].
    + unfold fresh_subgraph. cbn. by apply lookup_app_l.
    + intros n d' Hn Hbn.
      destruct (holder_was_holder self _ l n d' Hk' Hl Hn Hbn) as (d & Hd & Hbd).
      apply (Hent n d Hd Hbd).
Qed.

(** A statement that opens no scope of [B] leaves [B] alone. *)
Lemma exec_region_isolated (B : string) (d : CuteDSLSubgraphInfo) (s : stmt)
    (self : CuteDSLTemplateKernel) :
  regions_wf self →
  subgraph_bodies self !! B = Some d →
  body self ≠ sg_body d →
  enters B s = false →
  let self' := (exec s self).2 in
  subgraph_bodies self' !! B = Some d ∧
  region_lines B self' = region_lines B self ∧
  regions_wf self'.
Proof.
  intros Hwf Hd Hb Hent self'.
  assert (subgraph_bodies self' !! B = Some d) as Hd'.
  { unfold self'. by rewrite exec_other_regions. }
  split_and!; [done| |by apply keeps_regions_exec].
  assert (store self' !! sg_body d = store self !! sg_body d) as Hst.
  { pose proof Hwf as [Hbound Hinj].
    apply keeps_buffer_exec; [done|by apply (Hbound B)|done|].
    intros n dn Hn Hbn. by rewrite (Hinj n dn Hn B d Hd Hbn). }
  unfold region_lines, deref. rewrite Hd', Hd. cbn [fmap option_fmap option_map].
  by rewrite Hst.
Qed.

(** X3. Regions do not bleed into each other: from a kernel whose regions
    hold distinct buffers of the object store, a statement that opens no
    scope of region [B], run while [B] is not the active region, leaves
    the stored state of [B] and every line of its buffer as they were,
    whatever else it writes, creates or raises; and the regions still hold
    distinct buffers afterwards. *)
Theorem region_isolated (B : string) (d : CuteDSLSubgraphInfo) (s : stmt)
    (self : CuteDSLTemplateKernel) :
  regions_wf self →
  subgraph_bodies self !! B = Some d →
  body self ≠ sg_body d →
  enters B s = false →
  subgraph_bodies (exec s self).2 !! B = Some d ∧
  region_lines B (exec s self).2 = region_lines B self ∧
  regions_wf (exec s self).2.
Proof.
  intros Hwf Hd Hb Hent.
  by destruct (exec_region_isolated B d s self Hwf Hd Hb Hent) as (? & ? & ?).
Qed.

Lemma region_isolated_witness :
  let d := {| sg_body := 1; sg_template_mask := None; sg_template_out := None |} in
  let s := Seq (Writeline "acc = 0")
               (WithSet "epilogue"
                  (Seq (Writeline "out = acc") (Raise (OtherError "abandoned")))) in
  subgraph_bodies (exec s k_abc_defined).2 !! "<DEF_KERNEL>" = Some d ∧
  region_lines "<DEF_KERNEL>" (exec s k_abc_defined).2 =
    region_lines "<DEF_KERNEL>" k_abc_defined ∧
  regions_wf (exec s k_abc_defined).2.
Proof.
  intros d s.
  apply (region_isolated "<DEF_KERNEL>" d s k_abc_defined).
  - apply (bool_decide_unpack (regions_wf k_abc_defined)). vm_compute. exact I.
  - vm_compute. reflexivity.
  - vm_compute. lia.
  - vm_compute. reflexivity.
Defined.

(** X4. Statements never remove a region or a buffer, never move the
    kernel's current body to another buffer, and never touch the hook
    registry, the Argument Table, [named_input_nodes] or the identity
    fields, whatever the statement and however it ends; and they keep the
    regions on distinct buffers. *)
Theorem exec_keeps (s : stmt) (self : CuteDSLTemplateKernel) :
  (body (exec s self).2 = body self ∧
   length (store self) ≤ length (store (exec s self).2) ∧
   (∀ n, is_Some (subgraph_bodies self !! n) →
         is_Some (subgraph_bodies (exec s self).2 !! n)) ∧
   render_hooks (exec s self).2 = render_hooks self ∧
   args (exec s self).2 = args self ∧
   named_input_nodes (exec s self).2 = named_input_nodes self ∧
   kernel_name (exec s self).2 = kernel_name self ∧
   input_nodes (exec s self).2 = input_nodes self ∧
   output_node (exec s self).2 = output_node self) ∧
  (regions_wf self → regions_wf (exec s self).2).
Proof.
  split.
  - apply exec_fields.
  - intros Hwf. by apply keeps_regions_exec.
Qed.

Lemma exec_keeps_witness :
  let s := WithCreate "epilogue" (Seq (Writeline "out = acc") (Raise (OtherError "abandoned"))) in
  (body (exec s k_abc_defined).2 = body k_abc_defined ∧
   length (store k_abc_defined) ≤ length (store (exec s k_abc_defined).2) ∧
   (∀ n, is_Some (subgraph_bodies k_abc_defined !! n) →
         is_Some (subgraph_bodies (exec s k_abc_defined).2 !! n)) ∧
   render_hooks (exec s k_abc_defined).2 = render_hooks k_abc_defined ∧
   args (exec s k_abc_defined).2 = args k_abc_defined ∧
   named_input_nodes (exec s k_abc_defined).2 = named_input_nodes k_abc_defined ∧
   kernel_name (exec s k_abc_defined).2 = kernel_name k_abc_defined ∧
   input_nodes (exec s k_abc_defined).2 = input_nodes k_abc_defined ∧
   output_node (exec s k_abc_defined).2 = output_node k_abc_defined) ∧
  regions_wf (exec s k_abc_defined).2.
Proof.
  intros s.
  destruct (exec_keeps s k_abc_defined) as [Hf Hwf].
  split; [exact Hf|]. apply Hwf.
  apply (bool_decide_unpack (regions_wf k_abc_defined)). vm_compute. exact I.
Defined.

(** * The template operations, case by case *)

Lemma store_output_as_exec indices val mask w self :
  store_output indices val mask w self =
  (exec (WithCreate "<STORE_OUTPUT>" (store_output_stmt indices val mask));;
   register_hook "<STORE_OUTPUT>" None StoreOutputHook;;
   mret "<STORE_OUTPUT>") self.
Proof.
  unfold store_output, store_output_stmt. cbn [exec].
  by destruct (Py.truthy_str mask).
Qed.

Lemma def_kernel_scope_as_exec argnames self :
  def_kernel_scope argnames self =
  exec (def_kernel_stmt (kernel_name self) argnames) self.
Proof. by destruct argnames. Qed.

Lemma def_kernel_tail_as_exec argnames self :
  def_kernel_tail argnames self =
  (exec (WithCreate "<DEF_KERNEL>" (def_kernel_stmt (kernel_name self) argnames));;
   register_hook "<DEF_KERNEL>" (Some def_kernel_hook_msg) DefKernelHook;;
   mret "<DEF_KERNEL>") self.
Proof.
  unfold def_kernel_tail. rewrite !bind_eq. cbn [exec].
  destruct (subgraph_bodies self !! "<DEF_KERNEL>") as [d|] eqn:E.
  - rewrite !create_subgraph_body_exists by eauto. done.
  - rewrite !create_subgraph_body_new by done.
    by rewrite def_kernel_scope_as_exec.
Qed.

Lemma enters_store_output_stmt n indices val mask :
  enters n (store_output_stmt indices val mask) = false.
Proof. unfold store_output_stmt. cbn. by destruct (Py.truthy_str mask). Qed.

Lemma enters_def_kernel_stmt n name argnames :
  enters n (def_kernel_stmt name argnames) = false.
Proof. by destruct argnames. Qed.

(** A [with self.create_subgraph_body] block without [raise] returns when
    the region is new, and the region is stored afterwards. *)
Lemma exec_create_returns body_name (s : stmt) self :
  subgraph_bodies self !! body_name = None →
  (∀ s0, (exec s s0).1 = Returned tt) →
  (exec (WithCreate body_name s) self).1 = Returned tt ∧
  is_Some (subgraph_bodies (exec (WithCreate body_name s) self).2 !! body_name).
Proof.
  intros Hnone Hret. cbn [exec]. rewrite create_subgraph_body_new by done.
  specialize (Hret (entered_new body_name self)).
  destruct (exec s (entered_new body_name self)) as [r s2]. cbn in *.
  split; [done|]. unfold set_subgraph_body_exit. cbn. by rewrite lookup_insert_eq.
Qed.

Lemma store_output_stmt_returns indices val mask s0 :
  (exec (store_output_stmt indices val mask) s0).1 = Returned tt.
Proof. unfold store_output_stmt. cbn. by destruct (Py.truthy_str mask). Qed.

Lemma def_kernel_stmt_returns name argnames s0 :
  (exec (def_kernel_stmt name argnames) s0).1 = Returned tt.
Proof. by destruct argnames. Qed.

(** The three ways [store_output] can end. *)
Lemma store_output_cases indices val mask w self :
  store_output indices val mask w self =
  match subgraph_bodies self !! "<STORE_OUTPUT>" with
  | Some _ => (Raised (DuplicateRegionError "<STORE_OUTPUT>"), self)
  | None =>
      match render_hooks self !! "<STORE_OUTPUT>" with
      | Some _ =>
          (Raised (AssertionError None),
           (exec (WithCreate "<STORE_OUTPUT>" (store_output_stmt indices val mask)) self).2)
      | None =>
          (Returned "<STORE_OUTPUT>",
           set_render_hooks (insert "<STORE_OUTPUT>" StoreOutputHook)
             (exec (WithCreate "<STORE_OUTPUT>" (store_output_stmt indices val mask)) self).2)
      end
  end.
Proof.
  destruct (subgraph_bodies self !! "<STORE_OUTPUT>") as [d|] eqn:E.
  - apply store_output_region_exists. eauto.
  - rewrite store_output_as_exec, bind_eq.
    destruct (exec_create_returns "<STORE_OUTPUT>" (store_output_stmt indices val mask)
                self E (store_output_stmt_returns indices val mask)) as [Hr _].
    pose proof (exec_fields (WithCreate "<STORE_OUTPUT>" (store_output_stmt indices val mask))
                  self) as (_ & _ & _ & Hh & _).
    destruct (exec (WithCreate "<STORE_OUTPUT>" (store_output_stmt indices val mask)) self)
      as [r self1]. cbn in *. subst r. rewrite bind_eq.
    unfold register_hook. rewrite Hh.
    by destruct (render_hooks self !! "<STORE_OUTPUT>").
Qed.

(** The ways [def_kernel] can end. *)
Lemma def_kernel_cases argnames self :
  def_kernel argnames self =
  match bind_phase argnames self with
  | (Raised e, selfB) => (Raised e, selfB)
  | (Returned _, selfB) =>
      match subgraph_bodies self !! "<DEF_KERNEL>" with
      | Some _ => (Raised (DuplicateRegionError "<DEF_KERNEL>"), selfB)
      | None =>
          match render_hooks self !! "<DEF_KERNEL>" with
          | Some _ =>
              (Raised (AssertionError (Some def_kernel_hook_msg)),
               (exec (WithCreate "<DEF_KERNEL>" (def_kernel_stmt (kernel_name self) argnames))
                  selfB).2)
          | None =>
              (Returned "<DEF_KERNEL>",
               set_render_hooks (insert "<DEF_KERNEL>" DefKernelHook)
                 (exec (WithCreate "<DEF_KERNEL>" (def_kernel_stmt (kernel_name self) argnames))
                    selfB).2)
          end
      end
  end.
Proof.
  rewrite def_kernel_eq.
  destruct (bind_phase argnames self) as [[[]|e] selfB] eqn:HB; [|done].
  apply bind_phase_frame in HB as (R & _ & _).
  assert (subgraph_bodies selfB = subgraph_bodies self ∧
          render_hooks selfB = render_hooks self ∧
          kernel_name selfB = kernel_name self) as (E1 & E2 & E3)
    by (rewrite R; by split_and!).
  rewrite def_kernel_tail_as_exec, bind_eq, E3. rewrite <-E1, <-E2.
  destruct (subgraph_bodies selfB !! "<DEF_KERNEL>") as [d|] eqn:E.
  - cbn [exec]. rewrite create_subgraph_body_exists by eauto. done.
  - destruct (exec_create_returns "<DEF_KERNEL>"
                (def_kernel_stmt (kernel_name self) argnames) selfB E
                (def_kernel_stmt_returns (kernel_name self) argnames)) as [Hr _].
    pose proof (exec_fields (WithCreate "<DEF_KERNEL>"
                               (def_kernel_stmt (kernel_name self) argnames)) selfB)
      as (_ & _ & _ & Hh & _).
    destruct (exec (WithCreate "<DEF_KERNEL>" (def_kernel_stmt (kernel_name self) argnames))
                selfB) as [r self1]. cbn in *. subst r. rewrite bind_eq.
    unfold register_hook. rewrite Hh.
    by destruct (render_hooks selfB !! "<DEF_KERNEL>").
Qed.

(** * Hooks and their regions *)

Lemma hooks_have_regions_exec s self :
  hooks_have_regions self → hooks_have_regions (exec s self).2.
Proof.
  intros Hinv token h Hh.
  pose proof (exec_fields s self) as (_ & _ & Hmono & Hhooks & _).
  cbn zeta in *. rewrite Hhooks in Hh. apply Hmono. by eapply Hinv.
Qed.

Lemma hooks_have_regions_rebound self self' :
  rebound self self' → hooks_have_regions self → hooks_have_regions self'.
Proof. intros -> Hinv token h Hh. cbn in *. by eapply Hinv. Qed.

Lemma hooks_have_regions_register token hook self :
  hooks_have_regions self → is_Some (subgraph_bodies self !! token) →
  hooks_have_regions (set_render_hooks (insert token hook) self).
Proof.
  intros Hinv Hreg t h. cbn. destruct (decide (token = t)) as [->|Hne].
  - done.
  - rewrite lookup_insert_ne by done. apply Hinv.
Qed.

Lemma hooks_have_regions_new name inputs output :
  hooks_have_regions (new_kernel name inputs output).
Proof. intros token h. cbn. by rewrite lookup_empty. Qed.

(** X5. The hook guards cannot fire on a kernel used through its
    operations.  "Every registered hook has its region" holds of a new
    kernel and is kept by [def_kernel], by [store_output] and by every
    statement, however they end; and on a kernel for which it holds
    neither [def_kernel] nor [store_output] ever raises the
    duplicate-hook fault: a repeated call always stops at the region
    guard first. *)
Theorem hook_guard_unreachable (self : CuteDSLTemplateKernel) :
  hooks_have_regions self →
  (∀ argnames,
     hooks_have_regions (def_kernel argnames self).2 ∧
     ∀ e, (def_kernel argnames self).1 = Raised e → is_DuplicateHookError e = false) ∧
  (∀ indices val mask w,
     hooks_have_regions (store_output indices val mask w self).2 ∧
     ∀ e, (store_output indices val mask w self).1 = Raised e →
          is_DuplicateHookError e = false) ∧
  (∀ s, hooks_have_regions (exec s self).2).
Proof.
  intros Hinv. split_and!.
  - intros argnames. rewrite def_kernel_cases.
    destruct (bind_phase argnames self) as [[[]|e] selfB] eqn:HB;
      apply bind_phase_frame in HB as (R & Hfault & _).
    + pose proof (hooks_have_regions_rebound _ _ R Hinv) as HinvB.
      assert (subgraph_bodies selfB = subgraph_bodies self) as E1 by (by rewrite R).
      destruct (subgraph_bodies self !! "<DEF_KERNEL>") as [d|] eqn:E.
      * split; [done|]. cbn [fst snd]. intros e [= <-]. apply region_fault_is_no_hook_fault.
      * destruct (render_hooks self !! "<DEF_KERNEL>") as [h|] eqn:Eh.
        { destruct (Hinv _ _ Eh) as [? ?]. congruence. }
        cbn [fst snd]. split; [|done].
        apply hooks_have_regions_register; [by apply hooks_have_regions_exec|].
        apply exec_create_returns; [by rewrite E1|].
        apply def_kernel_stmt_returns.
    + split; [by eapply hooks_have_regions_rebound|].
      cbn [fst snd]. intros e' [= <-]. by destruct Hfault as [attr ->].
  - intros indices val mask w. rewrite store_output_cases.
    destruct (subgraph_bodies self !! "<STORE_OUTPUT>") as [d|] eqn:E.
    + split; [done|]. cbn [fst snd]. intros e [= <-]. apply region_fault_is_no_hook_fault.
    + destruct (render_hooks self !! "<STORE_OUTPUT>") as [h|] eqn:Eh.
      { destruct (Hinv _ _ Eh) as [? ?]. congruence. }
      cbn [fst snd]. split; [|done].
      apply hooks_have_regions_register; [by apply hooks_have_regions_exec|].
      apply exec_create_returns; [done|]. apply store_output_stmt_returns.
  - intros s. by apply hooks_have_regions_exec.
Qed.

Lemma hook_guard_unreachable_witness :
  (∀ argnames,
     hooks_have_regions (def_kernel argnames k_abc).2 ∧
     ∀ e, (def_kernel argnames k_abc).1 = Raised e → is_DuplicateHookError e = false) ∧
  (∀ indices val mask w,
     hooks_have_regions (store_output indices val mask w k_abc).2 ∧
     ∀ e, (store_output indices val mask w k_abc).1 = Raised e →
          is_DuplicateHookError e = false) ∧
  (∀ s, hooks_have_regions (exec s k_abc).2).
Proof.
  apply (hook_guard_unreachable k_abc).
  intros token h. vm_compute. discriminate.
Defined.

(** X6. The ways [store_output] can end.  If its region is stored
    already, it raises the duplicate-region fault and leaves the kernel
    exactly as it was.  If the region is new but the hook is registered,
    it raises the hook assertion only after the block has run: the region
    is stored and [template_indices] is set all the same.  If both are
    new, it returns its token, whatever the arguments. *)
Theorem store_output_outcomes (indices : option (list string)) (val : string)
    (mask : option string) (w : nat) (self : CuteDSLTemplateKernel) :
  (is_Some (subgraph_bodies self !! "<STORE_OUTPUT>") →
   store_output indices val mask w self =
   (Raised (DuplicateRegionError "<STORE_OUTPUT>"), self)) ∧
  (subgraph_bodies self !! "<STORE_OUTPUT>" = None →
   is_Some (render_hooks self !! "<STORE_OUTPUT>") →
   ∃ self',
     store_output indices val mask w self = (Raised (AssertionError None), self') ∧
     subgraph_bodies self' !! "<STORE_OUTPUT>" =
       Some {| sg_body := length (store self); sg_template_mask := mask;
               sg_template_out := Some val |} ∧
     template_indices self' = Some (default [] indices) ∧
     snapshot self' = snapshot self) ∧
  (subgraph_bodies self !! "<STORE_OUTPUT>" = None →
   render_hooks self !! "<STORE_OUTPUT>" = None →
   (store_output indices val mask w self).1 = Returned "<STORE_OUTPUT>").
Proof.
  split_and!.
  - apply store_output_region_exists.
  - intros Hs [h Hh].
    destruct (store_output_new_region indices val mask w self Hs)
      as (self1 & Heq & Hreg & _ & Hsnap & Hhooks & Hidx).
    exists self1. rewrite Heq, bind_eq, register_hook_registered; [done|].
    rewrite Hhooks. eauto.
  - intros Hs Hr.
    destruct (store_output_returns indices val mask w self Hs Hr) as (self' & -> & _).
    done.
Qed.

Lemma store_output_outcomes_witness :
  store_output None "other" None 4 k_abc_stored =
    (Raised (DuplicateRegionError "<STORE_OUTPUT>"), k_abc_stored) ∧
  (∃ self',
     store_output (Some ["i"]) "v" None 4
       (set_render_hooks (insert "<STORE_OUTPUT>" StoreOutputHook) k_abc) =
       (Raised (AssertionError None), self') ∧
     subgraph_bodies self' !! "<STORE_OUTPUT>" =
       Some {| sg_body := length (store k_abc); sg_template_mask := None;
               sg_template_out := Some "v" |} ∧
     template_indices self' = Some (default [] (Some ["i"])) ∧
     snapshot self' = snapshot k_abc) ∧
  (store_output None "v" (Some "") 4 k_abc).1 = Returned "<STORE_OUTPUT>".
Proof.
  split; [|split].
  - apply (store_output_outcomes None "other" None 4 k_abc_stored).
    vm_compute. eexists. reflexivity.
  - apply (store_output_outcomes (Some ["i"]) "v" None 4
             (set_render_hooks (insert "<STORE_OUTPUT>" StoreOutputHook) k_abc)).
    + vm_compute. reflexivity.
    + vm_compute. eexists. reflexivity.
  - apply (store_output_outcomes None "v" (Some "") 4 k_abc); vm_compute; reflexivity.
Defined.

(** X7. [def_kernel] binds before it checks the region.  On a kernel
    whose [<DEF_KERNEL>] region is stored already, a call whose bindings go
    through raises the duplicate-region fault, and the kernel it leaves is
    the one it found with the Argument Table and [named_input_nodes]
    rebound to the new names: the failed call has taken effect there,
    while the region still holds the lines of the first call. *)
Theorem def_kernel_fails_after_binding (argnames : list string)
    (self : CuteDSLTemplateKernel) (a : KernelArgs) :
  args self = Some a →
  Forall (λ p, has_get_name p.2) (zip argnames (input_nodes self)) →
  (∀ out, output_node self = Some out → has_get_name out) →
  is_Some (subgraph_bodies self !! "<DEF_KERNEL>") →
  def_kernel argnames self =
  (Raised (DuplicateRegionError "<DEF_KERNEL>"),
   set_args (Some (bound_args argnames self a))
     (set_named_input_nodes (λ d, bind_names d (zip argnames (input_nodes self))) self)) ∧
  region_lines "<DEF_KERNEL>" (def_kernel argnames self).2 =
    region_lines "<DEF_KERNEL>" self.
Proof.
  intros Ha Hall Hout [d Hd].
  assert (def_kernel argnames self =
          (Raised (DuplicateRegionError "<DEF_KERNEL>"),
           set_args (Some (bound_args argnames self a))
             (set_named_input_nodes
                (λ d, bind_names d (zip argnames (input_nodes self))) self))) as Heq.
  { rewrite def_kernel_cases, (bind_phase_returns argnames self a) by done.
    by rewrite Hd. }
  split; [done|]. by rewrite Heq.
Qed.

Lemma def_kernel_fails_after_binding_witness :
  def_kernel ["p"; "q"] k_abc_defined =
  (Raised (DuplicateRegionError "<DEF_KERNEL>"),
   set_args (Some (bound_args ["p"; "q"] k_abc_defined table_abc))
     (set_named_input_nodes
        (λ d, bind_names d (zip ["p"; "q"] (input_nodes k_abc_defined))) k_abc_defined)) ∧
  region_lines "<DEF_KERNEL>" (def_kernel ["p"; "q"] k_abc_defined).2 =
    region_lines "<DEF_KERNEL>" k_abc_defined.
Proof.
  apply (def_kernel_fails_after_binding ["p"; "q"] k_abc_defined table_abc).
  - vm_compute. reflexivity.
  - repeat constructor; by eexists.
  - intros out [= <-]. by eexists.
  - vm_compute. eexists. reflexivity.
Defined.

(** X8. The dedicated regions are not reused.  Once a scope of
    [<STORE_OUTPUT>] has been opened by name, auto-creating the region,
    [store_output] fails with the duplicate-region fault on its first
    call and changes nothing; once a scope of [<DEF_KERNEL>] has been
    opened, [def_kernel] fails on its first call, never with the
    duplicate-hook fault.  This holds whatever the scope did. *)
Theorem dedicated_region_not_reused {A : Type} (scope : Method A)
    (self : CuteDSLTemplateKernel) :
  (∀ indices val mask w,
     let self1 := (set_subgraph_body "<STORE_OUTPUT>" scope self).2 in
     store_output indices val mask w self1 =
     (Raised (DuplicateRegionError "<STORE_OUTPUT>"), self1)) ∧
  (∀ argnames,
     let self1 := (set_subgraph_body "<DEF_KERNEL>" scope self).2 in
     ∃ e self2,
       def_kernel argnames self1 = (Raised e, self2) ∧
       is_DuplicateHookError e = false ∧
       (bindable argnames self1 → e = DuplicateRegionError "<DEF_KERNEL>")).
Proof.
  assert (∀ n, is_Some (subgraph_bodies (set_subgraph_body n scope self).2 !! n)) as Hreg.
  { intros n. unfold set_subgraph_body.
    destruct (scope (set_subgraph_body_enter n self)) as [r s2]. cbn.
    unfold set_subgraph_body_exit. cbn. by rewrite lookup_insert_eq. }
  split.
  - intros indices val mask w self1. apply store_output_region_exists, Hreg.
  - intros argnames self1. apply def_kernel_region_exists, Hreg.
Qed.

(** [store_output], when it returns: what it adds and what it leaves. *)
Lemma store_output_full indices val mask w self :
  regions_wf self →
  subgraph_bodies self !! "<STORE_OUTPUT>" = None →
  render_hooks self !! "<STORE_OUTPUT>" = None →
  ∃ self1,
    store_output indices val mask w self = (Returned "<STORE_OUTPUT>", self1) ∧
    regions_wf self1 ∧
    snapshot self1 = snapshot self ∧
    region_lines "<STORE_OUTPUT>" self1 = Some (store_output_lines val mask) ∧
    subgraph_bodies self1 !! "<STORE_OUTPUT>" =
      Some {| sg_body := length (store self); sg_template_mask := mask;
              sg_template_out := Some val |} ∧
    (∀ B, B ≠ "<STORE_OUTPUT>" →
          subgraph_bodies self1 !! B = subgraph_bodies self !! B) ∧
    (∀ B d, B ≠ "<STORE_OUTPUT>" → subgraph_bodies self !! B = Some d →
            body self ≠ sg_body d → region_lines B self1 = region_lines B self) ∧
    render_hooks self1 = <["<STORE_OUTPUT>" := StoreOutputHook]> (render_hooks self) ∧
    args self1 = args self ∧
    named_input_nodes self1 = named_input_nodes self ∧
    kernel_name self1 = kernel_name self ∧
    input_nodes self1 = input_nodes self ∧
    output_node self1 = output_node self ∧
    length (store self) < length (store self1).
Proof.
  intros Hwf Hs Hh.
  destruct (store_output_returns indices val mask w self Hs Hh)
    as (self1 & Hst & Hreg & Hlines & Hsnap & _).
  exists self1. split; [done|].
  pose proof (store_output_cases indices val mask w self) as Hc. rewrite Hs, Hh in Hc.
  set (sS := WithCreate "<STORE_OUTPUT>" (store_output_stmt indices val mask)) in *.
  assert (∀ B, B ≠ "<STORE_OUTPUT>" → enters B sS = false) as Hent.
  { intros B HB. unfold sS. cbn [enters]. rewrite enters_store_output_stmt.
    by rewrite bool_decide_eq_false_2. }
  pose proof (keeps_regions_exec sS self Hwf) as (HwfX & _ & [HlenX _] & _).
  pose proof (exec_fields sS self) as (_ & _ & _ & HhX & HaX & HnX & HkX & HiX & HoX).
  cbn zeta in HhX, HaX, HnX, HkX, HiX, HoX.
  assert (∀ B, B ≠ "<STORE_OUTPUT>" →
               subgraph_bodies (exec sS self).2 !! B = subgraph_bodies self !! B) as HotherX.
  { intros B HB. apply exec_other_regions. by apply Hent. }
  assert (∀ B d, B ≠ "<STORE_OUTPUT>" → subgraph_bodies self !! B = Some d →
                 body self ≠ sg_body d →
                 region_lines B (exec sS self).2 = region_lines B self) as HisoX.
  { intros B d HB Hd Hb.
    by destruct (exec_region_isolated B d sS self Hwf Hd Hb (Hent B HB)) as (_ & ? & _). }
  set (X := (exec sS self).2) in *. clearbody X.
  rewrite Hc in Hst. injection Hst as <-.
  split_and!.
  - by apply (regions_wf_same X).
  - done.
  - unfold region_lines. rewrite Hreg. cbn [fmap option_fmap option_map sg_body].
    by rewrite Hlines.
  - exact Hreg.
  - intros B HB. by apply HotherX.
  - intros B d HB Hd Hb. by apply (HisoX B d).
  - change (render_hooks (set_render_hooks <["<STORE_OUTPUT>":=StoreOutputHook]> X))
      with (<["<STORE_OUTPUT>":=StoreOutputHook]> (render_hooks X)).
    by rewrite HhX.
  - done.
  - done.
  - done.
  - done.
  - done.
  - assert (sg_body {| sg_body := length (store self); sg_template_mask := mask;
                       sg_template_out := Some val |} < length (store X)) as Hlt.
    { destruct HwfX as [Hbound _]. apply (Hbound "<STORE_OUTPUT>"). exact Hreg. }
    exact Hlt.
Qed.

(** [def_kernel], when it returns: what it adds and what it leaves. *)
Lemma def_kernel_full argnames self a :
  args self = Some a →
  Forall (λ p, has_get_name p.2) (zip argnames (input_nodes self)) →
  (∀ out, output_node self = Some out → has_get_name out) →
  regions_wf self →
  subgraph_bodies self !! "<DEF_KERNEL>" = None →
  render_hooks self !! "<DEF_KERNEL>" = None →
  ∃ self1,
    def_kernel argnames self = (Returned "<DEF_KERNEL>", self1) ∧
    regions_wf self1 ∧
    snapshot self1 = snapshot self ∧
    region_lines "<DEF_KERNEL>" self1 = Some (def_kernel_lines (kernel_name self) argnames) ∧
    subgraph_bodies self1 !! "<DEF_KERNEL>" =
      Some {| sg_body := length (store self); sg_template_mask := None;
              sg_template_out := None |} ∧
    (∀ B, B ≠ "<DEF_KERNEL>" →
          subgraph_bodies self1 !! B = subgraph_bodies self !! B) ∧
    (∀ B d, B ≠ "<DEF_KERNEL>" → subgraph_bodies self !! B = Some d →
            body self ≠ sg_body d → region_lines B self1 = region_lines B self) ∧
    render_hooks self1 = <["<DEF_KERNEL>" := DefKernelHook]> (render_hooks self) ∧
    args self1 = Some (bound_args argnames self a) ∧
    kernel_name self1 = kernel_name self ∧
    input_nodes self1 = input_nodes self ∧
    output_node self1 = output_node self ∧
    length (store self) < length (store self1).
Proof.
  intros Ha Hall Hout Hwf Hs Hh.
  pose proof (bind_phase_returns argnames self a Ha Hall Hout) as HB.
  set (selfB := set_args (Some (bound_args argnames self a))
                  (set_named_input_nodes
                     (λ d, bind_names d (zip argnames (input_nodes self))) self)) in *.
  destruct (def_kernel_steps argnames self selfB HB Hs Hh)
    as (self1 & Hd & Hargs1 & _ & _ & _ & Hreg & Hlines & Hsnap & _ & _).
  exists self1. split; [done|].
  pose proof (def_kernel_cases argnames self) as Hc. rewrite HB, Hs, Hh in Hc.
  set (sD := WithCreate "<DEF_KERNEL>" (def_kernel_stmt (kernel_name self) argnames)) in *.
  assert (∀ B, B ≠ "<DEF_KERNEL>" → enters B sD = false) as Hent.
  { intros B HB'. unfold sD. cbn [enters]. rewrite enters_def_kernel_stmt.
    by rewrite bool_decide_eq_false_2. }
  assert (regions_wf selfB) as HwfB by (by apply (regions_wf_same self)).
  pose proof (keeps_regions_exec sD selfB HwfB) as (HwfX & _ & [HlenX _] & _).
  pose proof (exec_fields sD selfB) as (_ & _ & _ & HhX & HaX & HnX & HkX & HiX & HoX).
  cbn zeta in HhX, HaX, HnX, HkX, HiX, HoX.
  assert (∀ B, B ≠ "<DEF_KERNEL>" →
               subgraph_bodies (exec sD selfB).2 !! B = subgraph_bodies self !! B) as HotherX.
  { intros B HB'. rewrite exec_other_regions by by apply Hent. done. }
  assert (∀ B d, B ≠ "<DEF_KERNEL>" → subgraph_bodies self !! B = Some d →
                 body self ≠ sg_body d →
                 region_lines B (exec sD selfB).2 = region_lines B self) as HisoX.
  { intros B d HB' Hd0 Hb.
    by destruct (exec_region_isolated B d sD selfB HwfB Hd0 Hb (Hent B HB')) as (_ & ? & _). }
  set (X := (exec sD selfB).2) in *. clearbody X.
  rewrite Hc in Hd. injection Hd as <-.
  split_and!.
  - by apply (regions_wf_same X).
  - done.
  - unfold region_lines. rewrite Hreg. cbn [fmap option_fmap option_map sg_body].
    by rewrite Hlines.
  - exact Hreg.
  - intros B HB'. by apply HotherX.
  - intros B d HB' Hd0 Hb. by apply (HisoX B d).
  - change (render_hooks (set_render_hooks <["<DEF_KERNEL>":=DefKernelHook]> X))
      with (<["<DEF_KERNEL>":=DefKernelHook]> (render_hooks X)).
    by rewrite HhX.
  - done.
  - done.
  - done.
  - done.
  - assert (sg_body {| sg_body := length (store self); sg_template_mask := None;
                       sg_template_out := None |} < length (store X)) as Hlt.
    { destruct HwfX as [Hbound _]. apply (Hbound "<DEF_KERNEL>"). exact Hreg. }
    exact Hlt.
Qed.

(** X9. [def_kernel] and [store_output] can be called in either order.
    On a kernel with an Argument Table, named nodes, regions on distinct
    buffers, an existing current body, and neither of the two regions or
    hooks yet, both orders return both tokens, and in both final states
    the [<DEF_KERNEL>] region holds the signature lines, the
    [<STORE_OUTPUT>] region holds the store lines, both hooks are
    registered, the Argument Table is the bound one and the kernel's body,
    mask and output expression are untouched. *)
Theorem def_kernel_store_output_commute (argnames : list string)
    (indices : option (list string)) (val : string) (mask : option string) (w : nat)
    (self : CuteDSLTemplateKernel) (a : KernelArgs) :
  args self = Some a →
  Forall (λ p, has_get_name p.2) (zip argnames (input_nodes self)) →
  (∀ out, output_node self = Some out → has_get_name out) →
  regions_wf self →
  body self < length (store self) →
  subgraph_bodies self !! "<DEF_KERNEL>" = None →
  subgraph_bodies self !! "<STORE_OUTPUT>" = None →
  render_hooks self !! "<DEF_KERNEL>" = None →
  render_hooks self !! "<STORE_OUTPUT>" = None →
  let both (final : CuteDSLTemplateKernel) :=
    region_lines "<DEF_KERNEL>" final = Some (def_kernel_lines (kernel_name self) argnames) ∧
    region_lines "<STORE_OUTPUT>" final = Some (store_output_lines val mask) ∧
    render_hooks final !! "<DEF_KERNEL>" = Some DefKernelHook ∧
    render_hooks final !! "<STORE_OUTPUT>" = Some StoreOutputHook ∧
    args final = Some (bound_args argnames self a) ∧
    snapshot final = snapshot self in
  (∃ self1 self2,
     def_kernel argnames self = (Returned "<DEF_KERNEL>", self1) ∧
     store_output indices val mask w self1 = (Returned "<STORE_OUTPUT>", self2) ∧
     both self2) ∧
  (∃ self1 self2,
     store_output indices val mask w self = (Returned "<STORE_OUTPUT>", self1) ∧
     def_kernel argnames self1 = (Returned "<DEF_KERNEL>", self2) ∧
     both self2).
Proof.
  intros Ha Hall Hout Hwf Hbody HsD HsS HhD HhS both.
  assert ("<STORE_OUTPUT>" ≠ "<DEF_KERNEL>") as Hne by done.
  assert ("<DEF_KERNEL>" ≠ "<STORE_OUTPUT>") as Hne' by done.
  split.
  - destruct (def_kernel_full argnames self a Ha Hall Hout Hwf HsD HhD)
      as (self1 & Hd & Hwf1 & Hsnap1 & HlinesD & HregD & Hother1 & _ & Hhooks1 & Hargs1 & _).
    assert (body self1 = body self) as Hb1.
    { unfold snapshot in Hsnap1. by injection Hsnap1. }
    destruct (store_output_full indices val mask w self1 Hwf1)
      as (self2 & Hst & _ & Hsnap2 & HlinesS & _ & _ & Hiso2 & Hhooks2 & Hargs2 & _).
    { by rewrite Hother1. }
    { by rewrite Hhooks1, lookup_insert_ne. }
    exists self1, self2. split; [done|]. split; [done|].
    unfold both. split_and!.
    + rewrite (Hiso2 "<DEF_KERNEL>" _ Hne' HregD); [done|]. cbn [sg_body]. lia.
    + done.
    + rewrite Hhooks2, lookup_insert_ne, Hhooks1 by done. apply lookup_insert_eq.
    + rewrite Hhooks2. apply lookup_insert_eq.
    + by rewrite Hargs2.
    + by rewrite Hsnap2.
  - destruct (store_output_full indices val mask w self Hwf HsS HhS)
      as (self1 & Hst & Hwf1 & Hsnap1 & HlinesS & HregS & Hother1 & _ & Hhooks1 & Hargs1
          & _ & Hk1 & Hi1 & Ho1 & _).
    assert (body self1 = body self) as Hb1.
    { unfold snapshot in Hsnap1. by injection Hsnap1. }
    destruct (def_kernel_full argnames self1 a)
      as (self2 & Hd & _ & Hsnap2 & HlinesD & _ & _ & Hiso2 & Hhooks2 & Hargs2 & _).
    { by rewrite Hargs1. }
    { by rewrite Hi1. }
    { by rewrite Ho1. }
    { done. }
    { by rewrite Hother1. }
    { by rewrite Hhooks1, lookup_insert_ne. }
    exists self1, self2. split; [done|]. split; [done|].
    unfold both. split_and!.
    + by rewrite HlinesD, Hk1.
    + rewrite (Hiso2 "<STORE_OUTPUT>" _ Hne HregS); [done|]. cbn [sg_body]. lia.
    + rewrite Hhooks2. apply lookup_insert_eq.
    + rewrite Hhooks2, lookup_insert_ne, Hhooks1 by done. apply lookup_insert_eq.
    + rewrite Hargs2. unfold bound_args. by rewrite Hi1, Ho1.
    + by rewrite Hsnap2.
Qed.

Lemma def_kernel_store_output_commute_witness :
  let both (final : CuteDSLTemplateKernel) :=
    region_lines "<DEF_KERNEL>" final =
      Some (def_kernel_lines (kernel_name k_three) ["x"; "y"]) ∧
    region_lines "<STORE_OUTPUT>" final = Some (store_output_lines "acc" (Some "m")) ∧
    render_hooks final !! "<DEF_KERNEL>" = Some DefKernelHook ∧
    render_hooks final !! "<STORE_OUTPUT>" = Some StoreOutputHook ∧
    args final = Some (bound_args ["x"; "y"] k_three new_KernelArgs) ∧
    snapshot final = snapshot k_three in
  (∃ self1 self2,
     def_kernel ["x"; "y"] k_three = (Returned "<DEF_KERNEL>", self1) ∧
     store_output (Some ["i"]) "acc" (Some "m") 4 self1 = (Returned "<STORE_OUTPUT>", self2) ∧
     both self2) ∧
  (∃ self1 self2,
     store_output (Some ["i"]) "acc" (Some "m") 4 k_three = (Returned "<STORE_OUTPUT>", self1) ∧
     def_kernel ["x"; "y"] self1 = (Returned "<DEF_KERNEL>", self2) ∧
     both self2).
Proof.
  apply (def_kernel_store_output_commute ["x"; "y"] (Some ["i"]) "acc" (Some "m") 4
           k_three new_KernelArgs).
  - reflexivity.
  - repeat constructor; by eexists.
  - intros out [= <-]. by eexists.
  - apply (bool_decide_unpack (regions_wf k_three)). vm_compute. exact I.
  - vm_compute. lia.
  - vm_compute. reflexivity.
  - vm_compute. reflexivity.
  - vm_compute. reflexivity.
  - vm_compute. reflexivity.
Defined.

(** X10. The template operations leave the other regions alone.  When
    [store_output] returns on a kernel whose regions hold distinct
    buffers, every region but [<STORE_OUTPUT>] has the stored state it
    had, and the lines it had if it is not the active one; every hook but
    the new one, the Argument Table and the kernel's body, mask and output
    expression are as before.  The same holds of [def_kernel] and
    [<DEF_KERNEL>], except for the Argument Table it binds. *)
Theorem template_operations_frame (self : CuteDSLTemplateKernel) :
  regions_wf self →
  (∀ indices val mask w self1,
     store_output indices val mask w self = (Returned "<STORE_OUTPUT>", self1) →
     snapshot self1 = snapshot self ∧ args self1 = args self ∧
     render_hooks self1 = <["<STORE_OUTPUT>" := StoreOutputHook]> (render_hooks self) ∧
     ∀ B, B ≠ "<STORE_OUTPUT>" →
          subgraph_bodies self1 !! B = subgraph_bodies self !! B ∧
          (∀ d, subgraph_bodies self !! B = Some d → body self ≠ sg_body d →
                region_lines B self1 = region_lines B self)) ∧
  (∀ argnames a self1,
     args self = Some a →
     def_kernel argnames self = (Returned "<DEF_KERNEL>", self1) →
     snapshot self1 = snapshot self ∧
     render_hooks self1 = <["<DEF_KERNEL>" := DefKernelHook]> (render_hooks self) ∧
     ∀ B, B ≠ "<DEF_KERNEL>" →
          subgraph_bodies self1 !! B = subgraph_bodies self !! B ∧
          (∀ d, subgraph_bodies self !! B = Some d → body self ≠ sg_body d →
                region_lines B self1 = region_lines B self)).
Proof.
  intros Hwf. split.
  - intros indices val mask w self1 Hst.
    destruct (store_output_returns_inv _ _ _ _ _ _ _ Hst) as [Hs Hh].
    destruct (store_output_full indices val mask w self Hwf Hs Hh)
      as (s1 & Hst' & _ & Hsnap & _ & _ & Hother & Hiso & Hhooks & Hargs & _).
    rewrite Hst in Hst'. injection Hst' as <-.
    split_and!; [done..|]. intros B HB. split; [by apply Hother|].
    intros d Hd Hb. by apply (Hiso B d).
  - intros argnames a self1 Ha Hd.
    pose proof Hd as Hd0. rewrite def_kernel_cases in Hd0.
    destruct (bind_phase argnames self) as [[[]|e] selfB] eqn:HB; [|discriminate].
    destruct (bind_phase_returned_inv _ _ _ _ HB) as (Hall & Hout & _).
    destruct (subgraph_bodies self !! "<DEF_KERNEL>") as [d0|] eqn:Hs; [discriminate|].
    destruct (render_hooks self !! "<DEF_KERNEL>") as [h0|] eqn:Hh; [discriminate|].
    clear Hd0.
    destruct (def_kernel_full argnames self a Ha Hall Hout Hwf Hs Hh)
      as (s1 & Hd' & _ & Hsnap & _ & _ & Hother & Hiso & Hhooks & _).
    rewrite Hd in Hd'. injection Hd' as <-.
    split_and!; [done..|]. intros B HB'. split; [by apply Hother|].
    intros d Hd1 Hb. by apply (Hiso B d).
Qed.

Lemma template_operations_frame_witness :
  let self1 := (def_kernel ["x"; "y"] k_abc_stored).2 in
  snapshot self1 = snapshot k_abc_stored ∧
  render_hooks self1 = <["<DEF_KERNEL>" := DefKernelHook]> (render_hooks k_abc_stored) ∧
  subgraph_bodies self1 !! "<STORE_OUTPUT>" = subgraph_bodies k_abc_stored !! "<STORE_OUTPUT>" ∧
  region_lines "<STORE_OUTPUT>" self1 = region_lines "<STORE_OUTPUT>" k_abc_stored.
Proof.
  intros self1.
  destruct (template_operations_frame k_abc_stored) as [_ Hdef].
  { apply (bool_decide_unpack (regions_wf k_abc_stored)). vm_compute. exact I. }
  destruct (Hdef ["x"; "y"] new_KernelArgs self1) as (Hsnap & Hhooks & Hother).
  { vm_compute. reflexivity. }
  { vm_compute. reflexivity. }
  destruct (Hother "<STORE_OUTPUT>") as [Hreg Hlines]; [done|].
  split_and!; [done..|].
  apply (Hlines {| sg_body := 1; sg_template_mask := Some "m"; sg_template_out := Some "v" |}).
  - vm_compute. reflexivity.
  - vm_compute. lia.
Defined.

(** X11. The hooks read the outer body.  On a kernel with no region
    active, after [def_kernel] (or [store_output]) has returned, either
    hook returns the trimmed text the kernel's current body had before the
    call, and leaves the kernel as it is: what the call wrote into its
    region does not show in the hook's result. *)
Theorem hooks_read_outer_body (self : CuteDSLTemplateKernel) (h : Hook) :
  body self < length (store self) →
  unaliased (body self) self →
  (∀ argnames self1,
     def_kernel argnames self = (Returned "<DEF_KERNEL>", self1) →
     call_hook h self1 = (Returned (Py.strip (body_getvalue self)), self1)) ∧
  (∀ indices val mask w self1,
     store_output indices val mask w self = (Returned "<STORE_OUTPUT>", self1) →
     call_hook h self1 = (Returned (Py.strip (body_getvalue self)), self1)).
Proof.
  intros Hl Hun.
  assert (∀ n s s0, body s0 = body self → store s0 = store self →
                    subgraph_bodies s0 = subgraph_bodies self →
                    body_getvalue (exec (WithCreate n s) s0).2 = body_getvalue self) as Hkeep.
  { intros n s s0 Eb Est Esb.
    destruct (framed_create_subgraph_body (body self) (exec s) n s0)
      as (Hb & _ & Hst & _).
    - intros s1 ? ? ?. by apply framed_exec.
    - by rewrite Est.
    - unfold unaliased. by rewrite Esb.
    - unfold body_getvalue, deref. cbn [exec]. by rewrite Hb, Eb, Hst, Est. }
  split.
  - intros argnames self1 Hd. rewrite call_hook_reads_current_body. do 3 f_equal.
    rewrite def_kernel_cases in Hd.
    destruct (bind_phase argnames self) as [[[]|e] selfB] eqn:HB; [|discriminate].
    apply bind_phase_frame in HB as (R & _ & _).
    destruct (subgraph_bodies self !! "<DEF_KERNEL>"); [discriminate|].
    destruct (render_hooks self !! "<DEF_KERNEL>"); [discriminate|].
    injection Hd as <-.
    etrans; [|apply (Hkeep "<DEF_KERNEL>" (def_kernel_stmt (kernel_name self) argnames) selfB);
              by rewrite R].
    reflexivity.
  - intros indices val mask w self1 Hst. rewrite call_hook_reads_current_body. do 3 f_equal.
    rewrite store_output_cases in Hst.
    destruct (subgraph_bodies self !! "<STORE_OUTPUT>"); [discriminate|].
    destruct (render_hooks self !! "<STORE_OUTPUT>"); [discriminate|].
    injection Hst as <-.
    etrans; [|by apply (Hkeep "<STORE_OUTPUT>" (store_output_stmt indices val mask) self)].
    reflexivity.
Qed.

Lemma hooks_read_outer_body_witness :
  call_hook DefKernelHook (def_kernel ["x"; "y"] k_abc_stored).2 =
    (Returned (Py.strip (body_getvalue k_abc_stored)), (def_kernel ["x"; "y"] k_abc_stored).2) ∧
  call_hook StoreOutputHook (store_output None "v" None 4 k_abc_defined).2 =
    (Returned (Py.strip (body_getvalue k_abc_defined)),
     (store_output None "v" None 4 k_abc_defined).2).
Proof.
  split.
  - destruct (hooks_read_outer_body k_abc_stored DefKernelHook) as [Hdef _].
    + vm_compute. lia.
    + apply (bool_decide_unpack (unaliased (body k_abc_stored) k_abc_stored)).
      vm_compute. exact I.
    + apply (Hdef ["x"; "y"]). vm_compute. reflexivity.
  - destruct (hooks_read_outer_body k_abc_defined StoreOutputHook) as [_ Hst].
    + vm_compute. lia.
    + apply (bool_decide_unpack (unaliased (body k_abc_defined) k_abc_defined)).
      vm_compute. exact I.
    + apply (Hst None "v" None 4). vm_compute. reflexivity.
Defined.

(** * [call_kernel]: the emitted call *)


(** * Construction: [named_input_nodes] *)

Lemma name_inputs_other nodes :
  ∀ off d k,
    (∀ j node, nodes !! j = Some node → input_key (off + j) node ≠ k) →
    Py.dict_get k (name_inputs off nodes d) = Py.dict_get k d.
Proof.
  induction nodes as [|n0 rest IH]; intros off d k Hk; [done|].
  cbn [name_inputs]. fold (input_key off n0). rewrite IH.
  - apply dict_get_set_ne. intros ->. apply (Hk 0 n0); [done|]. by rewrite Nat.add_0_r.
  - intros j node Hj. replace (S off + j) with (off + S j) by lia. by apply Hk.
Qed.

Lemma name_inputs_lookup nodes :
  ∀ off d i node,
    nodes !! i = Some node →
    (∀ j node', i < j → nodes !! j = Some node' →
                input_key (off + j) node' ≠ input_key (off + i) node) →
    Py.dict_get (input_key (off + i) node) (name_inputs off nodes d) = Some node.
Proof.
  induction nodes as [|n0 rest IH]; intros off d i node Hi Hlater; [done|].
  cbn [name_inputs]. fold (input_key off n0).
  destruct i as [|i]; cbn in Hi.
  - injection Hi as ->. rewrite Nat.add_0_r in *. rewrite name_inputs_other.
    + apply dict_get_set_eq.
    + intros j node' Hj. replace (S off + j) with (off + S j) by lia.
      apply Hlater; [lia|done].
  - replace (off + S i) with (S off + i) by lia. apply IH; [done|].
    intros j node' Hij Hj.
    replace (S off + j) with (off + S j) by lia.
    replace (S off + i) with (off + S i) by lia.
    apply (Hlater (S j)); [lia|done].
Qed.

(** X13. The constructor files every input node under a key: its [name]
    attribute, or [input_<i>] for a node at position [i] without one.  A
    node is found under its key unless a later node has the same key, in
    which case the later one is found; a key that no input has is not in
    the mapping. *)
Theorem constructor_names_inputs (name : string) (inputs : list Buffer)
    (output : option Buffer) :
  (∀ i node,
     inputs !! i = Some node →
     (∀ j node', i < j → inputs !! j = Some node' → input_key j node' ≠ input_key i node) →
     Py.dict_get (input_key i node) (named_input_nodes (new_kernel name inputs output))
     = Some node) ∧
  (∀ k, (∀ j node, inputs !! j = Some node → input_key j node ≠ k) →
        Py.dict_get k (named_input_nodes (new_kernel name inputs output)) = None).
Proof.
  split.
  - intros i node Hi Hlater. apply (name_inputs_lookup inputs 0 [] i node Hi). exact Hlater.
  - intros k Hk. cbn [named_input_nodes new_kernel].
    by rewrite (name_inputs_other inputs 0 [] k).
Qed.

Lemma constructor_names_inputs_witness :
  let unnamed := {| buf_name := None; buf_get_name := None |} in
  let inputs := [buf "input_1"; unnamed; buf "a"] in
  Py.dict_get "input_1" (named_input_nodes (new_kernel "k" inputs None)) = Some unnamed ∧
  Py.dict_get "a" (named_input_nodes (new_kernel "k" inputs None)) = Some (buf "a") ∧
  Py.dict_get "input_0" (named_input_nodes (new_kernel "k" inputs None)) = None.
Proof.
  intros unnamed inputs.
  destruct (constructor_names_inputs "k" inputs None) as [Hfound Hnone].
  split_and!.
  - apply (Hfound 1 unnamed); [reflexivity|].
    intros [|[|[|j]]] node' Hij Hj; try lia; [|done].
    injection Hj as <-. vm_compute. discriminate.
  - apply (Hfound 2 (buf "a")); [reflexivity|].
    intros [|[|[|j]]] node' Hij Hj; try lia. done.
  - apply Hnone. intros [|[|[|j]]] node Hj; [| | |done];
      injection Hj as <-; vm_compute; discriminate.
Defined.

(** * [def_kernel]: [named_input_nodes] *)

Lemma bind_names_other k pairs :
  ∀ d, k ∉ pairs.*1 → Py.dict_get k (bind_names d pairs) = Py.dict_get k d.
Proof.
  induction pairs as [|[name node] rest IH]; intros d Hn; [done|].
  cbn in Hn. apply not_elem_of_cons in Hn as [Hne Hn].
  unfold bind_names. cbn. fold (bind_names (Py.dict_set name node d) rest).
  rewrite IH by done. by apply dict_get_set_ne.
Qed.

Lemma bind_names_lookup pairs :
  ∀ d i name node,
    pairs !! i = Some (name, node) →
    (∀ j node', i < j → pairs !! j ≠ Some (name, node')) →
    Py.dict_get name (bind_names d pairs) = Some node.
Proof.
  induction pairs as [|[name0 node0] rest IH]; intros d i name node Hi Hlater; [done|].
  unfold bind_names. cbn. fold (bind_names (Py.dict_set name0 node0 d) rest).
  destruct i as [|i]; cbn in Hi.
  - injection Hi as -> ->. rewrite bind_names_other; [apply dict_get_set_eq|].
    intros Hin. apply list_elem_of_fmap in Hin as ([n' node'] & Hn' & Hin). cbn in Hn'. subst n'.
    apply list_elem_of_lookup in Hin as [j Hj]. by apply (Hlater (S j) node'); [lia|].
  - apply (IH _ i); [done|]. intros j node' Hij. apply (Hlater (S j)). lia.
Qed.

(** X14. [def_kernel] also files the input nodes under the argument
    names: afterwards [named_input_nodes] maps each given name to the
    input node at its position (the last such position, if the name is
    given twice), overwriting what the name stood for before, and every
    key that is not among the names used keeps its node. *)
Theorem def_kernel_names_inputs (argnames : list string)
    (self : CuteDSLTemplateKernel) (a : KernelArgs) :
  args self = Some a →
  Forall (λ p, has_get_name p.2) (zip argnames (input_nodes self)) →
  (∀ out, output_node self = Some out → has_get_name out) →
  subgraph_bodies self !! "<DEF_KERNEL>" = None →
  render_hooks self !! "<DEF_KERNEL>" = None →
  ∃ self',
    def_kernel argnames self = (Returned "<DEF_KERNEL>", self') ∧
    (∀ i name node,
       argnames !! i = Some name → input_nodes self !! i = Some node →
       (∀ j, i < j → j < length (input_nodes self) → argnames !! j ≠ Some name) →
       Py.dict_get name (named_input_nodes self') = Some node) ∧
    (∀ k, k ∉ take (length (input_nodes self)) argnames →
          Py.dict_get k (named_input_nodes self') = Py.dict_get k (named_input_nodes self)).
Proof.
  intros Ha Hall Hout Hs Hr.
  destruct (def_kernel_returns argnames self a Ha Hall Hout Hs Hr)
    as (self' & Hd & _ & Hn & _).
  exists self'. split; [done|]. rewrite Hn. split.
  - intros i name node Hi Hnode Hlater.
    apply (bind_names_lookup _ _ i).
    + apply lookup_zip_with_Some. by eexists _, _.
    + intros j node' Hij Hj. apply lookup_zip_with_Some in Hj as (x & y & [= <- <-] & Hx & Hy).
      apply (Hlater j); [done| |done]. by eapply lookup_lt_Some.
  - intros k Hk. apply bind_names_other.
    intros Hin. apply Hk. clear -Hin.
    revert Hin. generalize (input_nodes self) as nodes.
    induction argnames as [|x l IH]; intros [|y nodes]; cbn; try by intros ?%elem_of_nil.
    intros [->|Hin]%elem_of_cons; [by left|]. right. by apply IH.
Qed.

Lemma def_kernel_names_inputs_witness :
  ∃ self',
    def_kernel ["b"; "a"] k_abc = (Returned "<DEF_KERNEL>", self') ∧
    Py.dict_get "b" (named_input_nodes k_abc) = Some (buf "b") ∧
    Py.dict_get "b" (named_input_nodes self') = Some (buf "a") ∧
    Py.dict_get "a" (named_input_nodes self') = Some (buf "b").
Proof.
  destruct (def_kernel_names_inputs ["b"; "a"] k_abc new_KernelArgs)
    as (self' & Hd & Hbound & _).
  - reflexivity.
  - repeat constructor; by eexists.
  - intros out [= <-]. by eexists.
  - vm_compute. reflexivity.
  - vm_compute. reflexivity.
  - exists self'. split_and!.
    + done.
    + vm_compute. reflexivity.
    + apply (Hbound 0); [reflexivity..|].
      intros [|[|j]] Hij Hj; try (cbn in Hj; lia); done.
    + apply (Hbound 1); [reflexivity..|].
      intros [|[|j]] Hij Hj; try (cbn in Hj; lia).
Defined.

(** * The base class: tensor specifications, launch configuration *)

Lemma run_call_cute_tensors c self name :
  cute_tensors (run_call c self) !! name =
  last_spec name [c] (cute_tensors self !! name).
Proof.
  destruct c as [buffer n|grid block_config|arg_name arg_value]; cbn [last_spec foldl run_call].
  - unfold create_cute_tensor_spec.
    destruct (get_layout buffer) as [layout|e]; cbn [snd cute_tensors].
    + destruct (decide (n = name)) as [->|Hne].
      * by rewrite lookup_insert_eq.
      * by rewrite lookup_insert_ne.
    + by destruct (decide (n = name)).
  - done.
  - done.
Qed.

Lemma run_call_kernel_config c self :
  kernel_config (run_call c self) !! "grid" = last_grid [c] (kernel_config self !! "grid") ∧
  grid_config (run_call c self) = last_grid [c] (grid_config self) ∧
  kernel_config (run_call c self) !! "block" = last_block [c] (kernel_config self !! "block") ∧
  (∀ k, k ≠ "grid" → k ≠ "block" →
        kernel_config (run_call c self) !! k = kernel_config self !! k).
Proof.
  destruct c as [buffer n|grid block_config|arg_name arg_value];
    cbn [last_grid last_block foldl run_call].
  - unfold create_cute_tensor_spec. by destruct (get_layout buffer).
  - unfold configure_kernel_launch. cbn [kernel_config grid_config].
    destruct block_config as [[|x r]|]; cbn [truthy_tuple default].
    + split_and!; [apply lookup_insert_eq|done|by rewrite lookup_insert_ne|].
      intros k Hg Hb. by rewrite lookup_insert_ne.
    + split_and!.
      * rewrite lookup_insert_ne by done. apply lookup_insert_eq.
      * done.
      * apply lookup_insert_eq.
      * intros k Hg Hb. by rewrite !lookup_insert_ne.
    + split_and!; [apply lookup_insert_eq|done|by rewrite lookup_insert_ne|].
      intros k Hg Hb. by rewrite lookup_insert_ne.
  - done.
Qed.

(** X15. Tensor specifications and CUTLASS arguments over any run of
    calls.  The specification kept under a name is that of the last
    [create_cute_tensor_spec] call for that name whose layout accessor
    answered, built from that layout with the stride absent when the
    layout has none; calls whose accessor faulted, calls for other names
    and calls of the other methods do not disturb it.  The CUTLASS
    arguments are the earlier ones followed by the added ones in call
    order, repeated names included. *)
Theorem run_calls_specs_and_args (cs : list base_call) (self : CuteDSLKernel) :
  (∀ name, cute_tensors (run_calls cs self) !! name =
           last_spec name cs (cute_tensors self !! name)) ∧
  cutlass_args (run_calls cs self) = cutlass_args self ++ added_args cs ∧
  (∀ buffer name e, get_layout buffer = Raised e →
     create_cute_tensor_spec buffer name self = (Raised e, self)) ∧
  (∀ buffer name layout, get_layout buffer = Returned layout →
     (create_cute_tensor_spec buffer name self).1 = Returned (spec_of layout name)).
Proof.
  split_and!.
  - revert self. induction cs as [|c cs IH]; intros self name; [done|].
    change (run_calls (c :: cs) self) with (run_calls cs (run_call c self)).
    rewrite IH, run_call_cute_tensors. done.
  - revert self. induction cs as [|c cs IH]; intros self.
    + cbn. by rewrite app_nil_r.
    + change (run_calls (c :: cs) self) with (run_calls cs (run_call c self)).
      rewrite IH. destruct c as [buffer n|grid block_config|arg_name arg_value].
      * cbn [run_call]. unfold create_cute_tensor_spec.
        by destruct (get_layout buffer).
      * done.
      * cbn [run_call add_cutlass_arg cutlass_args]. by rewrite <-app_assoc.
  - intros buffer name e He. unfold create_cute_tensor_spec. by rewrite He.
  - intros buffer name layout Hl. unfold create_cute_tensor_spec. by rewrite Hl.
Qed.

(** X16. Launch configuration over any run of calls.  The configured grid
    is that of the last [configure_kernel_launch], kept twice: in
    [grid_config] and under ["grid"] in [kernel_config], which agree after
    any run if they agreed before.  The block under ["block"] is that of
    the last call given a non-empty block: a later call without a block,
    or with an empty one, leaves the earlier block in place.  No other key
    of [kernel_config] is ever touched. *)
Theorem run_calls_launch_config (cs : list base_call) (self : CuteDSLKernel) :
  kernel_config (run_calls cs self) !! "grid" = last_grid cs (kernel_config self !! "grid") ∧
  grid_config (run_calls cs self) = last_grid cs (grid_config self) ∧
  kernel_config (run_calls cs self) !! "block" =
    last_block cs (kernel_config self !! "block") ∧
  (∀ k, k ≠ "grid" → k ≠ "block" →
        kernel_config (run_calls cs self) !! k = kernel_config self !! k) ∧
  (grid_config self = kernel_config self !! "grid" →
   grid_config (run_calls cs self) = kernel_config (run_calls cs self) !! "grid").
Proof.
  assert (kernel_config (run_calls cs self) !! "grid" =
            last_grid cs (kernel_config self !! "grid") ∧
          grid_config (run_calls cs self) = last_grid cs (grid_config self) ∧
          kernel_config (run_calls cs self) !! "block" =
            last_block cs (kernel_config self !! "block") ∧
          (∀ k, k ≠ "grid" → k ≠ "block" →
                kernel_config (run_calls cs self) !! k = kernel_config self !! k))
    as (Hg & Hgc & Hb & Hk).
  { revert self. induction cs as [|c cs IH]; intros self; [done|].
    change (run_calls (c :: cs) self) with (run_calls cs (run_call c self)).
    destruct (IH (run_call c self)) as (Hg & Hgc & Hb & Hk).
    destruct (run_call_kernel_config c self) as (Hg1 & Hgc1 & Hb1 & Hk1).
    split_and!.
    - by rewrite Hg, Hg1.
    - by rewrite Hgc, Hgc1.
    - by rewrite Hb, Hb1.
    - intros k Hkg Hkb. by rewrite Hk, Hk1. }
  split_and!; [done..|].
  intros Heq. by rewrite Hg, Hgc, Heq.
Qed.

Lemma run_calls_launch_config_witness :
  let cs := [CallLaunch [8; 8]%Z (Some [128]%Z); CallArg "alpha" (VInt 1);
             CallLaunch [4]%Z (Some []); CallLaunch [2; 2]%Z None] in
  kernel_config (run_calls cs new_CuteDSLKernel) !! "grid" = Some [2; 2]%Z ∧
  kernel_config (run_calls cs new_CuteDSLKernel) !! "block" = Some [128]%Z ∧
  grid_config (run_calls cs new_CuteDSLKernel) =
    kernel_config (run_calls cs new_CuteDSLKernel) !! "grid".
Proof.
  intros cs.
  destruct (run_calls_launch_config cs new_CuteDSLKernel) as (Hg & _ & Hb & _ & Hagree).
  split_and!.
  - rewrite Hg. reflexivity.
  - rewrite Hb. reflexivity.
  - apply Hagree. reflexivity.
Defined.

Lemma run_calls_specs_and_args_witness :
  let faulty := {| get_layout := Raised (OtherError "no layout") |} in
  let plain := {| get_layout := Returned {| layout_size := [4; 4]%Z; layout_stride := None;
                                            layout_dtype := "float32";
                                            layout_device := "cuda" |} |} in
  create_cute_tensor_spec faulty "t" new_CuteDSLKernel =
    (Raised (OtherError "no layout"), new_CuteDSLKernel) ∧
  (create_cute_tensor_spec plain "t" new_CuteDSLKernel).1 =
    Returned {| spec_name := "t"; spec_shape := [4; 4]%Z; spec_stride := None;
                spec_dtype := "float32"; spec_device := "cuda" |} ∧
  cute_tensors (run_calls [CallSpec plain "t"; CallArg "alpha" (VInt 1);
                           CallSpec faulty "t"; CallArg "alpha" (VInt 2)]
                  new_CuteDSLKernel) !! "t" =
    Some {| spec_name := "t"; spec_shape := [4; 4]%Z; spec_stride := None;
            spec_dtype := "float32"; spec_device := "cuda" |}.
Proof.
  intros faulty plain.
  destruct (run_calls_specs_and_args
              [CallSpec plain "t"; CallArg "alpha" (VInt 1);
               CallSpec faulty "t"; CallArg "alpha" (VInt 2)] new_CuteDSLKernel)
    as (Hspec & _ & Hfault & Hok).
  split_and!.
  - apply Hfault. reflexivity.
  - apply (Hok plain "t" {| layout_size := [4; 4]%Z; layout_stride := None;
                             layout_dtype := "float32"; layout_device := "cuda" |}).
    reflexivity.
  - rewrite Hspec. reflexivity.
Defined.

Lemma dedicated_region_not_reused_witness :
  store_output None "v" None 4 (set_subgraph_body "<STORE_OUTPUT>" (exec Pass) k_abc).2 =
    (Raised (DuplicateRegionError "<STORE_OUTPUT>"),
     (set_subgraph_body "<STORE_OUTPUT>" (exec Pass) k_abc).2) ∧
  (def_kernel ["x"; "y"] (set_subgraph_body "<DEF_KERNEL>" (exec Pass) k_abc).2).1 =
    Raised (DuplicateRegionError "<DEF_KERNEL>").
Proof.
  destruct (dedicated_region_not_reused (exec Pass) k_abc) as [Hst Hdef].
  split.
  - apply Hst.
  - destruct (Hdef ["x"; "y"]) as (e & self2 & Heq & _ & Hregion).
    rewrite Heq. cbn [fst]. f_equal. apply Hregion.
    split_and!.
    + repeat constructor; by eexists.
    + intros out [= <-]. by eexists.
    + intros _. by eexists.
Defined.

(** * [def_kernel]: a node without [get_name] *)

Lemma bind_inputs_stops pre :
  ∀ self a name node post,
    args self = Some a →
    Forall (λ p, has_get_name p.2) pre →
    buf_get_name node = None →
    bind_inputs (pre ++ (name, node) :: post) self =
    (Raised (AttributeError "get_name"),
     set_args (Some {| input_buffers := bind_table (input_buffers a) pre;
                       output_buffers := output_buffers a |})
       (set_named_input_nodes (λ d, bind_names d (pre ++ [(name, node)])) self)).
Proof.
  induction pre as [|[n0 node0] pre IH]; intros self a name node post Ha Hall Hnone.
  - cbn [app bind_inputs]. run. cbn [args set_named_input_nodes]. rewrite Ha, Hnone. run.
    f_equal. destruct self, a. cbn in *. by subst.
  - apply Forall_cons in Hall as [[o Ho] Hall]. cbn in Ho.
    cbn [app bind_inputs]. run. cbn [args set_named_input_nodes]. rewrite Ha, Ho. run.
    erewrite IH; [|reflexivity|done|done].
    f_equal. unfold bind_table, bind_names, outer. cbn. rewrite Ho. cbn.
    by destruct self.
Qed.

(** X17. [def_kernel] stops at the first zipped input node that has no
    [get_name], with an attribute fault, before any region or hook is
    made; but the bindings made so far stay: the Argument Table holds the
    inputs before that node, and [named_input_nodes] holds them and the
    offending node itself under the name it was to get. *)
Theorem def_kernel_partial_binding (argnames : list string)
    (self : CuteDSLTemplateKernel) (a : KernelArgs) (i : nat) (name : string)
    (node : Buffer) :
  args self = Some a →
  zip argnames (input_nodes self) !! i = Some (name, node) →
  buf_get_name node = None →
  Forall (λ p, has_get_name p.2) (take i (zip argnames (input_nodes self))) →
  def_kernel argnames self =
  (Raised (AttributeError "get_name"),
   set_args (Some {| input_buffers :=
                       bind_table (input_buffers a) (take i (zip argnames (input_nodes self)));
                     output_buffers := output_buffers a |})
     (set_named_input_nodes
        (λ d, bind_names d (take (S i) (zip argnames (input_nodes self)))) self)) ∧
  subgraph_bodies (def_kernel argnames self).2 = subgraph_bodies self ∧
  render_hooks (def_kernel argnames self).2 = render_hooks self.
Proof.
  intros Ha Hi Hnone Hall.
  assert (def_kernel argnames self =
    (Raised (AttributeError "get_name"),
     set_args (Some {| input_buffers :=
                         bind_table (input_buffers a) (take i (zip argnames (input_nodes self)));
                       output_buffers := output_buffers a |})
       (set_named_input_nodes
          (λ d, bind_names d (take (S i) (zip argnames (input_nodes self)))) self))) as Heq.
  { rewrite def_kernel_cases. unfold bind_phase. rewrite bind_eq, bind_phase_inputs.
    rewrite <-(take_drop_middle _ _ _ Hi) at 1.
    rewrite (bind_inputs_stops _ self a) by done.
    by rewrite (take_S_r _ _ _ Hi). }
  rewrite Heq. by split_and!.
Qed.

Lemma def_kernel_partial_binding_witness :
  let unnamed := {| buf_name := None; buf_get_name := None |} in
  def_kernel ["x"; "y"; "z"] k_three =
  (Raised (AttributeError "get_name"),
   set_args (Some {| input_buffers := [("a", "x"); ("b", "y")]; output_buffers := [] |})
     (set_named_input_nodes
        (λ d, bind_names d [("x", buf "a"); ("y", buf "b"); ("z", unnamed)]) k_three)) ∧
  subgraph_bodies (def_kernel ["x"; "y"; "z"] k_three).2 = subgraph_bodies k_three ∧
  render_hooks (def_kernel ["x"; "y"; "z"] k_three).2 = render_hooks k_three.
Proof.
  intros unnamed.
  apply (def_kernel_partial_binding ["x"; "y"; "z"] k_three new_KernelArgs 2 "z" unnamed).
  - reflexivity.
  - reflexivity.
  - reflexivity.
  - repeat constructor; by eexists.
Defined.

(** * A scope of the active region *)

Lemma enter_lookup_snapshot body_name self :
  subgraph_bodies (set_subgraph_body_enter body_name self) !! body_name =
  Some (snapshot (set_subgraph_body_enter body_name self)).
Proof.
  unfold set_subgraph_body_enter.
  destruct (subgraph_bodies self !! body_name) as [d|] eqn:E.
  - rewrite E, snapshot_load. exact E.
  - assert (subgraph_bodies (fresh_subgraph body_name self) !! body_name
            = Some {| sg_body := length (store self); sg_template_mask := None;
                      sg_template_out := None |}) as Hc.
    { unfold fresh_subgraph. cbn. apply lookup_insert_eq. }
    rewrite Hc, snapshot_load. exact Hc.
Qed.

(** Entering the region that is already active changes nothing. *)
Lemma enter_active body_name self :
  set_subgraph_body_enter body_name (set_subgraph_body_enter body_name self) =
  set_subgraph_body_enter body_name self.
Proof.
  pose proof (enter_lookup_snapshot body_name self) as H.
  set (entered := set_subgraph_body_enter body_name self) in *. clearbody entered.
  unfold set_subgraph_body_enter. rewrite H, H. apply load_snapshot.
Qed.

(** X18. Opening a scope of the region that is already active runs the
    scope on the same buffer, so the lines it writes stay; but the mask
    and output expression it assigns are lost: the inner exit saves them
    and puts the earlier values back on the kernel, and the outer exit
    then saves those earlier values over them.  After the nested scopes
    the region's stored state is the state it was entered with, whereas
    after a single scope it is the state at the end of the scope. *)
Theorem nested_scope_loses_fields {A : Type} (body_name : string) (scope : Method A)
    (self : CuteDSLTemplateKernel) :
  let entered := set_subgraph_body_enter body_name self in
  let single := (set_subgraph_body body_name scope self).2 in
  let nested := (set_subgraph_body body_name (set_subgraph_body body_name scope) self).2 in
  subgraph_bodies single !! body_name = Some (snapshot (scope entered).2) ∧
  subgraph_bodies nested !! body_name = Some (snapshot entered) ∧
  store nested = store single ∧
  (set_subgraph_body body_name (set_subgraph_body body_name scope) self).1 =
    (set_subgraph_body body_name scope self).1 ∧
  snapshot nested = snapshot self.
Proof.
  intros entered single nested.
  subst entered single nested. unfold set_subgraph_body.
  rewrite enter_active.
  destruct (scope (set_subgraph_body_enter body_name self)) as [r s2]. cbn [fst snd].
  unfold set_subgraph_body_exit. rewrite !snapshot_load.
  split_and!.
  - cbn. apply lookup_insert_eq.
  - cbn. apply lookup_insert_eq.
  - reflexivity.
  - reflexivity.
  - reflexivity.
Qed.
